(** * Business recommendation system: scoring engine and demand/competition predictor

    A shallow embedding of [recommendation_engine.py] and [ml_predictor.py].

    Numbers.  The Python code computes on IEEE doubles (and NumPy integers);
    here every number is an exact rational ([Q]), compared with [==].  NaN and
    the infinities have no counterpart: the one place where the code produces
    a NaN on purpose (the sample standard deviation of a one-element group)
    is modelled with [option].  The two transcendental primitives the code
    takes from NumPy, [np.log1p] and the square root inside [std], are
    parameters of the development, and so is the value drawn by
    [np.random.normal]. *)

From Stdlib Require Import QArith Qround Qminmax ZArith List String Ascii Bool Lia Lqa.
From Stdlib Require Import Sorting.Sorted Sorting.Permutation.
From Stdlib Require OrderedTypeEx.
Import ListNotations.

Local Open Scope string_scope.
Local Open Scope list_scope.
Local Open Scope Z_scope.
Local Open Scope Q_scope.

(** ** Python and NumPy primitives *)

Module Py.

(** Exceptions the modelled code raises or catches. *)
Inductive exception : Type :=
| ValueError (msg : string)
| NotFittedError
| IndexError
| KeyError (key : string)
| PredictError (msg : string).

(** A computation that either returns or raises. *)
Inductive result (A : Type) : Type :=
| Ok (a : A)
| Raise (e : exception).
Arguments Ok {A} a.
Arguments Raise {A} e.

Definition bind {A B : Type} (m : result A) (k : A -> result B) : result B :=
  match m with
  | Ok a => k a
  | Raise e => Raise e
  end.

(** Nearest integer, ties to the even neighbour: what [round] does on a
    float and on a NumPy scalar. *)
Definition round_half_even (x : Q) : Z :=
  let f := Qfloor x in
  match Qcompare (x - inject_Z f) (1 # 2) with
  | Lt => f
  | Gt => (f + 1)%Z
  | Eq => if Z.even f then f else (f + 1)%Z
  end.

Definition pow10 (ndigits : nat) : Q := inject_Z (10 ^ Z.of_nat ndigits).

(** [round(x, ndigits)]. *)
Definition round (x : Q) (ndigits : nat) : Q :=
  inject_Z (round_half_even (x * pow10 ndigits)) / pow10 ndigits.

(** [np.clip(x, lo, hi)]: [minimum(maximum(x, lo), hi)]. *)
Definition clip (x lo hi : Q) : Q := Qmin (Qmax x lo) hi.

(** [a < b] on numbers. *)
Definition lt (a b : Q) : bool := negb (Qle_bool b a).

(** The builtin [min(a, b)]: [b] when [b < a], else [a]. *)
Definition min (a b : Q) : Q := if lt b a then b else a.

Definition sum (l : list Q) : Q := fold_right Qplus 0 l.

Definition len {A : Type} (l : list A) : Q := inject_Z (Z.of_nat (List.length l)).

(** [Series.mean()] of a non-empty column. *)
Definition mean (l : list Q) : Q := sum l / len l.

(** [x in xs] on a list of strings. *)
Definition contains (xs : list string) (x : string) : bool :=
  existsb (String.eqb x) xs.

End Py.

(** ** The dataset *)

(** One line of the CSV file: the six required columns. *)
Record Row : Type := {
  City : string;
  Category : string;
  Business : string;
  Investment : Q;
  Demand : Q;
  Competition : Q
}.

(** The dictionary both prediction paths return.  The engine adds the keys
    ['interpretation'] and ['recommendation'] to the dictionary it gets from
    the predictor; they are absent ([None]) until then. *)
Record Prediction : Type := {
  demand : Q;
  competition : Q;
  confidence : Q;
  market_gap : Q;
  prediction_quality : string;
  interpretation : option string;
  recommendation : option string
}.

(** ** [ml_predictor.py] *)

Module MLPredictor.

(** A fitted regressor, as [predict] sees it: a matrix of samples in, one
    value per sample out, or an exception. *)
Definition Model : Type := list (list Q) -> Py.result (list Q).

(** The parameters [StandardScaler.fit] leaves behind. *)
Record StandardScaler : Type := { mean_ : list Q; scale_ : list Q }.

(** [self.label_encoders]: column name to the encoder's [classes_]. *)
Definition Encoders : Type := list (string * list string).

(** The attributes of an [MLPredictor] the modelled methods touch.
    [scaler = None] is a [StandardScaler()] that was never fitted. *)
Record t : Type := {
  df : option (list Row);
  demand_model : option Model;
  competition_model : option Model;
  label_encoders : Encoders;
  scaler : option StandardScaler
}.

(** [__init__]. *)
Definition init : t :=
  {| df := None; demand_model := None; competition_model := None;
     label_encoders := []; scaler := None |}.

(** *** Label encoding *)

Fixpoint insert_unique (x : string) (l : list string) : list string :=
  match l with
  | [] => [x]
  | y :: l' =>
      match String.compare x y with
      | Lt => x :: l
      | Eq => l
      | Gt => y :: insert_unique x l'
      end
  end.

(** [np.unique]: the distinct values, sorted. *)
Definition unique (values : list string) : list string :=
  fold_right insert_unique [] values.

Fixpoint find_index (x : string) (classes : list string) : option nat :=
  match classes with
  | [] => None
  | y :: classes' =>
      if String.eqb x y then Some O
      else option_map S (find_index x classes')
  end.

(** [LabelEncoder.transform]: refuses a label it was not fitted on. *)
Fixpoint transform (classes : list string) (ys : list string)
  : Py.result (list Z) :=
  match ys with
  | [] => Py.Ok []
  | y :: ys' =>
      match find_index y classes with
      | None => Py.Raise (Py.ValueError "y contains previously unseen labels")
      | Some i => Py.bind (transform classes ys')
                    (fun codes => Py.Ok (Z.of_nat i :: codes))
      end
  end.

(** [LabelEncoder.fit_transform]: the classes and the codes. *)
Definition fit_transform (ys : list string) : list string * list Z :=
  let classes := unique ys in
  (classes,
   map (fun y => match find_index y classes with
                 | Some i => Z.of_nat i
                 | None => 0%Z
                 end) ys).

Fixpoint get (col : string) (encs : Encoders) : option (list string) :=
  match encs with
  | [] => None
  | (k, v) :: encs' => if String.eqb col k then Some v else get col encs'
  end.

(** [xs[0]]. *)
Definition item0 {A : Type} (xs : list A) : Py.result A :=
  match xs with
  | [] => Py.Raise Py.IndexError
  | x :: _ => Py.Ok x
  end.

Fixpoint apply {A B : Type} (f : A -> Py.result B) (xs : list A)
  : Py.result (list B) :=
  match xs with
  | [] => Py.Ok []
  | x :: xs' =>
      Py.bind (f x) (fun b => Py.bind (apply f xs') (fun bs => Py.Ok (b :: bs)))
  end.

(** The loop body of [prepare_features] for one column: fit an encoder
    when the column has none yet, otherwise encode with the frozen one and
    send an unseen value to [-1].  Returns the codes and the dictionary. *)
Definition encode (col : string) (values : list string) (encs : Encoders)
  : Py.result (list Z) * Encoders :=
  match get col encs with
  | None =>
      let (classes, codes) := fit_transform values in
      (Py.Ok codes, encs ++ [(col, classes)])
  | Some classes =>
      (apply (fun x =>
                if Py.contains classes x
                then Py.bind (transform classes [x]) item0
                else Py.Ok (-1)%Z) values,
       encs)
  end.

(** *** Feature engineering, prediction, training *)

Section Numeric.

(** [np.log1p], and the square root taken by [std] and by the scaler. *)
Variable np_log1p : Q -> Q.
Variable np_sqrt : Q -> Q.

(** [Series.std()]: the sample standard deviation (one degree of freedom
    removed); NaN, here [None], for a single value. *)
Definition std (l : list Q) : option Q :=
  match l with
  | [] | [_] => None
  | _ =>
      let m := Py.mean l in
      Some (np_sqrt (Py.sum (map (fun x => (x - m) * (x - m)) l)
                     / (Py.len l - 1)))
  end.

(** [fillna(0)]. *)
Definition fillna (x : option Q) : Q :=
  match x with
  | Some q => q
  | None => 0
  end.

(** A line of [features_df] once the three code columns are there. *)
Record Encoded : Type := {
  row : Row;
  City_encoded : Z;
  Category_encoded : Z;
  Business_encoded : Z
}.

(** [groupby('City_encoded').agg(...)] read at one key, which is what
    the left [merge] on [City_encoded] puts on every line with that key:
    mean, std and count of Investment, mean Demand, mean Competition. *)
Definition city_stats (features_df : list Encoded) (code : Z) : list Q :=
  let g := filter (fun r => Z.eqb (City_encoded r) code) features_df in
  let investment := map (fun r => Investment (row r)) g in
  [ Py.mean investment; fillna (std investment); Py.len g;
    Py.mean (map (fun r => Demand (row r)) g);
    Py.mean (map (fun r => Competition (row r)) g) ].

(** [groupby('Category_encoded').agg(...)] read at one key. *)
Definition category_stats (features_df : list Encoded) (code : Z) : list Q :=
  let g := filter (fun r => Z.eqb (Category_encoded r) code) features_df in
  let investment := map (fun r => Investment (row r)) g in
  [ Py.mean investment; fillna (std investment);
    Py.mean (map (fun r => Demand (row r)) g);
    Py.mean (map (fun r => Competition (row r)) g) ].

(** The fourteen [feature_columns] of one line, in the order of the
    source. *)
Definition feature_columns (features_df : list Encoded) (r : Encoded)
  : list Q :=
  [ inject_Z (City_encoded r); inject_Z (Category_encoded r);
    inject_Z (Business_encoded r);
    np_log1p (Investment (row r));
    Investment (row r) / 1000000 ]
  ++ city_stats features_df (City_encoded r)
  ++ category_stats features_df (Category_encoded r).

Fixpoint zip_codes (df : list Row) (cities categories businesses : list Z)
  : list Encoded :=
  match df, cities, categories, businesses with
  | r :: df', c :: cs, g :: gs, b :: bs =>
      {| row := r; City_encoded := c; Category_encoded := g;
         Business_encoded := b |} :: zip_codes df' cs gs bs
  | _, _, _, _ => []
  end.

(** [prepare_features]: the feature matrix, one vector per line of
    [df], and [self.label_encoders] as the call leaves it. *)
Definition prepare_features (df : list Row) (encs : Encoders)
  : Py.result (list (list Q)) * Encoders :=
  match encode "City" (map City df) encs with
  | (Py.Raise e, encs1) => (Py.Raise e, encs1)
  | (Py.Ok cities, encs1) =>
  match encode "Category" (map Category df) encs1 with
  | (Py.Raise e, encs2) => (Py.Raise e, encs2)
  | (Py.Ok categories, encs2) =>
  match encode "Business" (map Business df) encs2 with
  | (Py.Raise e, encs3) => (Py.Raise e, encs3)
  | (Py.Ok businesses, encs3) =>
      let features_df := zip_codes df cities categories businesses in
      (Py.Ok (map (feature_columns features_df) features_df), encs3)
  end end end.

(** [StandardScaler.transform]. *)
Definition scale_row (sc : StandardScaler) (x : list Q) : list Q :=
  map (fun '(v, (m, s)) => (v - m) / s)
      (combine x (combine (mean_ sc) (scale_ sc))).

Definition scaler_transform (sc : option StandardScaler) (X : list (list Q))
  : Py.result (list (list Q)) :=
  match sc with
  | None => Py.Raise Py.NotFittedError
  | Some sc =>
      if forallb (fun x => Nat.eqb (List.length x) (List.length (mean_ sc))) X
      then Py.Ok (map (scale_row sc) X)
      else Py.Raise (Py.ValueError "X has a different number of features")
  end.

(** [_calculate_confidence]; [normal] is the value drawn by
    [np.random.normal(0, 0.1)].  The features are not looked at. *)
Definition _calculate_confidence (features : list Q) (normal : Q) : Q :=
  let base_confidence := 85 # 100 in
  Py.min (base_confidence + normal) 1.

Definition fallback_predictions : list (string * (Q * Q)) :=
  [ ("Food", (75, 65)); ("Tech", (80, 55)); ("Healthcare", (85, 45));
    ("Education", (70, 60)); ("Fitness", (72, 50)); ("Tourism", (68, 55));
    ("Retail", (65, 70)) ].

(** [dict.get(key, default)]. *)
Fixpoint dict_get {V : Type} (d : list (string * V)) (key : string)
  (default : V) : V :=
  match d with
  | [] => default
  | (k, v) :: d' => if String.eqb key k then v else dict_get d' key default
  end.

(** [_get_fallback_prediction]. *)
Definition _get_fallback_prediction (category : string) : Prediction :=
  let pred := dict_get fallback_predictions category (70, 60) in
  {| demand := fst pred;
     competition := snd pred;
     confidence := 6 # 10;
     market_gap := fst pred - snd pred;
     prediction_quality := "Medium";
     interpretation := None;
     recommendation := None |}.

(** ['High' if confidence > 0.8 else 'Medium' if confidence > 0.6 else 'Low']. *)
Definition quality (confidence : Q) : string :=
  if Py.lt (8 # 10) confidence then "High"
  else if Py.lt (6 # 10) confidence then "Medium"
  else "Low".

(** The dictionary built at the end of the [try] block. *)
Definition ml_result (demand_pred competition_pred confidence : Q)
  : Prediction :=
  {| demand := Py.round demand_pred 1;
     competition := Py.round competition_pred 1;
     confidence := Py.round confidence 2;
     market_gap := Py.round (demand_pred - competition_pred) 1;
     prediction_quality := quality confidence;
     interpretation := None;
     recommendation := None |}.

(** The one-line frame [predict_single_business] builds. *)
Definition input_data (city category business : string) (investment : Q)
  : list Row :=
  [ {| City := city; Category := category; Business := business;
       Investment := investment; Demand := 0; Competition := 0 |} ].

(** The body of the [try] block, after [prepare_features]. *)
Definition try_predict (dm cm : Model) (sc : option StandardScaler)
  (features : Py.result (list (list Q))) (normal : Q)
  : Py.result Prediction :=
  Py.bind features (fun features =>
  Py.bind (scaler_transform sc features) (fun features_scaled =>
  Py.bind (Py.bind (dm features_scaled) item0) (fun demand_pred =>
  Py.bind (Py.bind (cm features_scaled) item0) (fun competition_pred =>
  let demand_pred := Py.clip demand_pred 50 100 in
  let competition_pred := Py.clip competition_pred 20 80 in
  Py.bind (item0 features_scaled) (fun features0 =>
  let confidence := _calculate_confidence features0 normal in
  Py.Ok (ml_result demand_pred competition_pred confidence)))))).

Definition with_encoders (self : t) (encs : Encoders) : t :=
  {| df := df self; demand_model := demand_model self;
     competition_model := competition_model self;
     label_encoders := encs; scaler := scaler self |}.

(** [predict_single_business]: what the call returns or raises, and the
    predictor afterwards ([prepare_features] may add encoders). *)
Definition predict_single_business (self : t)
  (city category business : string) (investment : Q) (normal : Q)
  : Py.result Prediction * t :=
  match demand_model self, competition_model self with
  | Some dm, Some cm =>
      let (features, encs) :=
        prepare_features (input_data city category business investment)
          (label_encoders self) in
      let self' := with_encoders self encs in
      match try_predict dm cm (scaler self') features normal with
      | Py.Ok prediction => (Py.Ok prediction, self')
      | Py.Raise _ => (Py.Ok (_get_fallback_prediction category), self')
      end
  | _, _ =>
      (Py.Raise (Py.ValueError "Models not trained. Call train_models() first."),
       self)
  end.

(** *** Training *)

Section Training.

(** [train_test_split] with [random_state=42] picks, for a frame with
    [n] lines, the positions of the training and of the test lines;
    [RandomForestRegressor(...).fit] returns a fitted model. *)
Variable split_indices : nat -> list nat * list nat.
Variable RandomForestRegressor_fit : list (list Q) -> list Q -> Model.

Definition select {A : Type} (idx : list nat) (l : list A) : list A :=
  flat_map (fun i => match nth_error l i with
                     | Some a => [a]
                     | None => []
                     end) idx.

Definition column (j : nat) (X : list (list Q)) : list Q :=
  map (fun x => nth j x 0) X.

Definition var (l : list Q) : Q :=
  let m := Py.mean l in Py.mean (map (fun v => (v - m) * (v - m)) l).

(** [StandardScaler.fit]: column means, and column standard deviations
    with a zero replaced by 1. *)
Definition scaler_fit (X : list (list Q)) : StandardScaler :=
  let n_features := match X with [] => O | x :: _ => List.length x end in
  let cols := map (fun j => column j X) (seq 0 n_features) in
  {| mean_ := map Py.mean cols;
     scale_ := map (fun c => let s := np_sqrt (var c) in
                             if Qeq_bool s 0 then 1 else s) cols |}.

(** [train_models], on the lines [csv] of the dataset file; the
    evaluation on the held-out lines and the feature importances are
    left out. *)
Definition train_models (self : t) (csv : list Row)
  : Py.result unit * t :=
  let data := match df self with Some d => d | None => csv end in
  let (features, encs) := prepare_features data (label_encoders self) in
  let self1 :=
    {| df := Some data; demand_model := demand_model self;
       competition_model := competition_model self;
       label_encoders := encs; scaler := scaler self |} in
  match features with
  | Py.Raise e => (Py.Raise e, self1)
  | Py.Ok features =>
      let (train, test) := split_indices (List.length data) in
      match select train features with
      | [] => (Py.Raise (Py.ValueError "the resulting train set will be empty"),
               self1)
      | X_train =>
          let sc := scaler_fit X_train in
          let X_train_scaled := map (scale_row sc) X_train in
          (Py.Ok tt,
           {| df := Some data;
              demand_model :=
                Some (RandomForestRegressor_fit X_train_scaled
                        (select train (map Demand data)));
              competition_model :=
                Some (RandomForestRegressor_fit X_train_scaled
                        (select train (map Competition data)));
              label_encoders := encs;
              scaler := Some sc |})
      end
  end.

End Training.

End Numeric.

End MLPredictor.

(** ** [recommendation_engine.py] *)

Module BusinessRecommendationEngine.

(** *** Frames as objects

    [get_recommendations] adds columns to a frame, so frames are objects
    in a store and the engine holds a reference to its dataset.  A line of
    a frame carries the six dataset columns and, once assigned, the
    ['score'] and ['explanation'] columns. *)
Record FrameRow : Type := {
  base : Row;
  score : option Q;
  explanation : option string
}.

Definition DataFrame : Type := list FrameRow.
Definition Heap : Type := list DataFrame.
Definition ref : Type := nat.

Definition deref (h : Heap) (r : ref) : DataFrame := nth r h [].

(** A new object, at the first free position. *)
Definition alloc (f : DataFrame) (h : Heap) : ref * Heap :=
  (List.length h, h ++ [f]).

Fixpoint store (r : ref) (f : DataFrame) (h : Heap) : Heap :=
  match h, r with
  | [], _ => []
  | _ :: h', O => f :: h'
  | g :: h', S r' => g :: store r' f h'
  end.

(** The frame [pd.read_csv] makes of the file's lines. *)
Definition read_csv (csv : list Row) : DataFrame :=
  map (fun r => {| base := r; score := None; explanation := None |}) csv.

(** [frame['score'] = values] and [frame['explanation'] = values], in
    place. *)
Fixpoint assign_score (f : DataFrame) (values : list Q) : DataFrame :=
  match f, values with
  | r :: f', v :: values' =>
      {| base := base r; score := Some v; explanation := explanation r |}
      :: assign_score f' values'
  | _, _ => []
  end.

Fixpoint assign_explanation (f : DataFrame) (values : list string)
  : DataFrame :=
  match f, values with
  | r :: f', v :: values' =>
      {| base := base r; score := score r; explanation := Some v |}
      :: assign_explanation f' values'
  | _, _ => []
  end.

(** [row['score']], [row['explanation']]. *)
Definition get_score (r : FrameRow) : Py.result Q :=
  match score r with
  | Some v => Py.Ok v
  | None => Py.Raise (Py.KeyError "score")
  end.

Definition get_explanation (r : FrameRow) : Py.result string :=
  match explanation r with
  | Some v => Py.Ok v
  | None => Py.Raise (Py.KeyError "explanation")
  end.

(** *** [nlargest] *)

(** Insertion in a list that is in descending order of key; among equal
    keys the inserted element goes first. *)
Fixpoint insert_desc {A : Type} (x : Q * A) (l : list (Q * A))
  : list (Q * A) :=
  match l with
  | [] => [x]
  | y :: l' =>
      if Qle_bool (fst y) (fst x) then x :: l
      else y :: insert_desc x l'
  end.

(** Descending order of key, lines with equal keys in their original
    order ([keep='first']). *)
Definition sort_desc {A : Type} (l : list (Q * A)) : list (Q * A) :=
  fold_right insert_desc [] l.

(** [frame.nlargest(n, 'score')]: the [n] lines with the largest score,
    largest first; nothing for [n <= 0]. *)
Definition nlargest (n : Z) (f : DataFrame) : Py.result DataFrame :=
  Py.bind (MLPredictor.apply
             (fun r => Py.bind (get_score r) (fun v => Py.Ok (v, r))) f)
    (fun keyed => Py.Ok (firstn (Z.to_nat n) (map snd (sort_desc keyed)))).

(** *** The engine *)

Record t : Type := {
  df : ref;
  use_ml : bool;
  ml_predictor : option MLPredictor.t
}.

(** [calculate_market_gap]. *)
Definition calculate_market_gap (demand competition : Q) : Q :=
  let market_gap := demand - competition in
  let normalized_gap := ((market_gap + 100) / 200) * 100 in
  normalized_gap.

(** [calculate_budget_fit]. *)
Definition calculate_budget_fit (user_budget required_investment : Q) : Q :=
  if Qle_bool required_investment user_budget then 100
  else
    let fit_percentage := (user_budget / required_investment) * 100 in
    Py.min fit_percentage 100.

(** [calculate_interest_match]. *)
Definition calculate_interest_match (user_interests : list string)
  (business_category : string) : Q :=
  if Py.contains user_interests business_category then 100 else 0.

(** [calculate_total_score]. *)
Definition calculate_total_score (row : Row) (user_budget : Q)
  (user_interests : list string) : Q :=
  let market_gap := calculate_market_gap (Demand row) (Competition row) in
  let budget_fit := calculate_budget_fit user_budget (Investment row) in
  let interest_match := calculate_interest_match user_interests (Category row) in
  let total_score :=
    (market_gap * (5 # 10)) + (budget_fit * (3 # 10)) + (interest_match * (2 # 10)) in
  Py.round total_score 2.

(** [" | ".join(explanations)]. *)
Fixpoint join (sep : string) (l : list string) : string :=
  match l with
  | [] => ""
  | [x] => x
  | x :: l' => x ++ sep ++ join sep l'
  end.

(** [get_score_explanation]. *)
Definition get_score_explanation (row : Row) (user_budget : Q)
  (user_interests : list string) : string :=
  let market_gap := calculate_market_gap (Demand row) (Competition row) in
  let budget_fit := calculate_budget_fit user_budget (Investment row) in
  let interest_match := calculate_interest_match user_interests (Category row) in
  let market :=
    if Qle_bool 70 market_gap
    then "🎯 High market opportunity (low competition, high demand)"
    else if Qle_bool 50 market_gap then "📈 Good market potential"
    else "⚠️ Competitive market" in
  let budget :=
    if Qeq_bool budget_fit 100 then "💰 Perfect budget fit"
    else if Qle_bool 80 budget_fit then "💵 Good budget alignment"
    else if Qle_bool 50 budget_fit then "💲 Moderate budget requirement"
    else "💸 High investment needed" in
  let interest :=
    if Qeq_bool interest_match 100 then "❤️ Matches your interests"
    else "🔍 Outside your preferred categories" in
  join " | " [market; budget; interest].

(** The dictionary [get_recommendations] builds for one line. *)
Module Recommendation.
Record t : Type := {
  business_name : string;
  category : string;
  investment_required : Q;
  demand : Q;
  competition : Q;
  score : Q;
  explanation : string;
  market_gap : Q;
  budget_fit : Q;
  interest_match : Q
}.
End Recommendation.

(** The body of the [iterrows] loop. *)
Definition to_dict (budget : Q) (interests : list string)
  (r : FrameRow) : Py.result Recommendation.t :=
  Py.bind (get_score r) (fun s =>
  Py.bind (get_explanation r) (fun e =>
  Py.Ok {| Recommendation.business_name := Business (base r);
           Recommendation.category := Category (base r);
           Recommendation.investment_required := Investment (base r);
           Recommendation.demand := Demand (base r);
           Recommendation.competition := Competition (base r);
           Recommendation.score := s;
           Recommendation.explanation := e;
           Recommendation.market_gap :=
             calculate_market_gap (Demand (base r)) (Competition (base r));
           Recommendation.budget_fit :=
             calculate_budget_fit budget (Investment (base r));
           Recommendation.interest_match :=
             calculate_interest_match interests (Category (base r)) |})).

(** [get_recommendations]: the list returned (or the exception), and the
    store afterwards.  The selection [self.df[...]] is a new frame and
    [.copy()] another; the two column assignments write to that copy. *)
Definition get_recommendations (self : t) (city : string) (budget : Q)
  (interests : list string) (top_n : Z) (h : Heap)
  : Py.result (list Recommendation.t) * Heap :=
  let (selection, h1) :=
    alloc (filter (fun r => String.eqb (City (base r)) city) (deref h (df self))) h in
  let (city_businesses, h2) := alloc (deref h1 selection) h1 in
  match deref h2 city_businesses with
  | [] => (Py.Ok [], h2)
  | _ =>
      let h3 :=
        store city_businesses
          (assign_score (deref h2 city_businesses)
             (map (fun r => calculate_total_score (base r) budget interests)
                  (deref h2 city_businesses))) h2 in
      let h4 :=
        store city_businesses
          (assign_explanation (deref h3 city_businesses)
             (map (fun r => get_score_explanation (base r) budget interests)
                  (deref h3 city_businesses))) h3 in
      match nlargest top_n (deref h4 city_businesses) with
      | Py.Raise e => (Py.Raise e, h4)
      | Py.Ok top =>
          let (top_businesses, h5) := alloc top h4 in
          (MLPredictor.apply (to_dict budget interests)
             (deref h5 top_businesses), h5)
      end
  end.

(** [_get_basic_prediction]; it only reads the dataset. *)
Definition _get_basic_prediction (self : t) (city category : string)
  (h : Heap) : Prediction :=
  let data := map base (deref h (df self)) in
  let city_data :=
    filter (fun r => String.eqb (City r) city && String.eqb (Category r) category)
      data in
  let (avg_demand, avg_competition) :=
    match city_data with
    | [] =>
        let category_data :=
          filter (fun r => String.eqb (Category r) category) data in
        (match category_data with
         | [] => 70
         | _ => Py.mean (map Demand category_data)
         end,
         match category_data with
         | [] => 50
         | _ => Py.mean (map Competition category_data)
         end)
    | _ => (Py.mean (map Demand city_data), Py.mean (map Competition city_data))
    end in
  {| demand := Py.round avg_demand 1;
     competition := Py.round avg_competition 1;
     market_gap := Py.round (avg_demand - avg_competition) 1;
     confidence := 7 # 10;
     prediction_quality := "Basic";
     interpretation := None;
     recommendation := None |}.

(** [_interpret_ml_prediction]. *)
Definition _interpret_ml_prediction (prediction : Prediction) : string :=
  let market_gap := market_gap prediction in
  let confidence := confidence prediction in
  if Py.lt 20 market_gap && Py.lt (8 # 10) confidence
  then "🚀 Excellent opportunity with high confidence"
  else if Py.lt 15 market_gap && Py.lt (7 # 10) confidence
  then "📈 Good opportunity with solid predictions"
  else if Py.lt 5 market_gap
  then "📊 Moderate opportunity, consider market research"
  else "⚠️ Challenging market, high competition expected".

(** [_get_business_recommendation]. *)
Definition _get_business_recommendation (prediction : Prediction) : string :=
  let demand := demand prediction in
  let competition := competition prediction in
  let confidence := confidence prediction in
  if Py.lt 80 demand && Py.lt competition 40
  then "🎯 Highly recommended - High demand, low competition"
  else if Py.lt 70 demand && Py.lt competition 60
  then "👍 Recommended - Good market potential"
  else if Py.lt confidence (6 # 10)
  then "🔍 Needs more research - Low prediction confidence"
  else "⚠️ Proceed with caution - Competitive market".

(** [prediction['interpretation'] = s] and [prediction['recommendation'] = s]. *)
Definition set_interpretation (prediction : Prediction) (s : string)
  : Prediction :=
  {| demand := demand prediction;
     competition := competition prediction;
     confidence := confidence prediction;
     market_gap := market_gap prediction;
     prediction_quality := prediction_quality prediction;
     interpretation := Some s;
     recommendation := recommendation prediction |}.

Definition set_recommendation (prediction : Prediction) (s : string)
  : Prediction :=
  {| demand := demand prediction;
     competition := competition prediction;
     confidence := confidence prediction;
     market_gap := market_gap prediction;
     prediction_quality := prediction_quality prediction;
     interpretation := interpretation prediction;
     recommendation := Some s |}.

Definition with_predictor (self : t) (p : MLPredictor.t) : t :=
  {| df := df self; use_ml := use_ml self; ml_predictor := Some p |}.

Section Numeric.

Variable np_log1p : Q -> Q.
Variable np_sqrt : Q -> Q.

(** [predict_new_business_opportunity]: the dictionary returned and the
    engine afterwards (the call may add encoders to its predictor). *)
Definition predict_new_business_opportunity (self : t)
  (city category business_name : string) (investment : Q) (normal : Q)
  (h : Heap) : Prediction * t :=
  match use_ml self, ml_predictor self with
  | true, Some p =>
      match MLPredictor.predict_single_business np_log1p np_sqrt p
              city category business_name investment normal with
      | (Py.Ok prediction, p') =>
          let prediction1 :=
            set_interpretation prediction (_interpret_ml_prediction prediction) in
          let prediction2 :=
            set_recommendation prediction1
              (_get_business_recommendation prediction1) in
          (prediction2, with_predictor self p')
      | (Py.Raise _, p') =>
          (_get_basic_prediction self city category h, with_predictor self p')
      end
  | _, _ => (_get_basic_prediction self city category h, self)
  end.

End Numeric.

End BusinessRecommendationEngine.

Module E := BusinessRecommendationEngine.
Module P := MLPredictor.

(** ** Definitions used to state the properties *)

(** The weighted sum, before rounding. *)
Definition weighted_sum (row : Row) (budget : Q) (interests : list string) : Q :=
  (5 # 10) * E.calculate_market_gap (Demand row) (Competition row)
  + (3 # 10) * E.calculate_budget_fit budget (Investment row)
  + (2 # 10) * E.calculate_interest_match interests (Category row).


(** The lines of a frame whose city is [city]. *)
Definition matching (city : string) (d : E.DataFrame) : E.DataFrame :=
  filter (fun r => String.eqb (City (E.base r)) city) d.

(** A dataset line with its score and explanation columns filled in. *)
Definition scored_row (budget : Q) (interests : list string) (row : Row)
  : E.FrameRow :=
  {| E.base := row;
     E.score := Some (E.calculate_total_score row budget interests);
     E.explanation := Some (E.get_score_explanation row budget interests) |}.

(** The dictionary [get_recommendations] returns for a dataset line. *)
Definition recommendation_of (budget : Q) (interests : list string) (row : Row)
  : E.Recommendation.t :=
  {| E.Recommendation.business_name := Business row;
     E.Recommendation.category := Category row;
     E.Recommendation.investment_required := Investment row;
     E.Recommendation.demand := Demand row;
     E.Recommendation.competition := Competition row;
     E.Recommendation.score := E.calculate_total_score row budget interests;
     E.Recommendation.explanation := E.get_score_explanation row budget interests;
     E.Recommendation.market_gap :=
       E.calculate_market_gap (Demand row) (Competition row);
     E.Recommendation.budget_fit := E.calculate_budget_fit budget (Investment row);
     E.Recommendation.interest_match :=
       E.calculate_interest_match interests (Category row) |}.

(** Dataset lines paired with their total score, the key of the ranking. *)
Definition keyed (budget : Q) (interests : list string) (rows : list Row)
  : list (Q * Row) :=
  map (fun row => (E.calculate_total_score row budget interests, row)) rows.

(** The ranking [get_recommendations] computes, as a function of the
    selected dataset lines. *)
Definition ranking (budget : Q) (interests : list string) (top_n : Z)
  (rows : list Row) : list E.Recommendation.t :=
  map (recommendation_of budget interests)
    (firstn (Z.to_nat top_n) (map snd (E.sort_desc (keyed budget interests rows)))).


(** A reference that points into the store. *)
Definition allocated (h : E.Heap) (r : E.ref) : Prop := (r < List.length h)%nat.

(** Descending order of key. *)
Definition key_ge {A : Type} (a b : Q * A) : Prop := fst b <= fst a.

(** ** Sample data *)

Definition sample_csv : list Row :=
  [ {| City := "Mumbai"; Category := "Food"; Business := "Cloud Kitchen";
       Investment := 100; Demand := 80; Competition := 40 |};
    {| City := "Mumbai"; Category := "Tech"; Business := "Software Startup";
       Investment := 300; Demand := 60; Competition := 50 |};
    {| City := "Delhi"; Category := "Food"; Business := "Cafe";
       Investment := 200; Demand := 90; Competition := 30 |} ].

(** A store that holds the dataset frame only, and a basic engine on it. *)
Definition sample_heap : E.Heap := [E.read_csv sample_csv].

Definition sample_engine : E.t :=
  {| E.df := 0%nat; E.use_ml := false; E.ml_predictor := None |}.

(** A line with market gap 0 and one with market gap 100. *)
Definition saturated_row : Row :=
  {| City := "Pune"; Category := "Food"; Business := "Diner";
     Investment := 100; Demand := 0; Competition := 100 |}.

Definition open_row : Row :=
  {| City := "Pune"; Category := "Tech"; Business := "Repair Shop";
     Investment := 100; Demand := 100; Competition := 0 |}.

(** Both models are there: the state in which [predict_single_business]
    goes past its guard. *)
Definition trained (self : P.t) : Prop :=
  exists dm cm : P.Model,
    P.demand_model self = Some dm /\ P.competition_model self = Some cm.

(** The categories with an entry of their own in the fallback table. *)
Definition fallback_categories : list string :=
  ["Food"; "Tech"; "Healthcare"; "Education"; "Fitness"; "Tourism"; "Retail"].

(** A model that answers the same value for every sample. *)
Definition constant_model (v : Q) : P.Model :=
  fun X => Py.Ok (map (fun _ => v) X).

(** A predictor with both models, encoders for the sample dataset and a
    fitted scaler over the fourteen features. *)
Definition sample_predictor : P.t :=
  {| P.df := Some sample_csv;
     P.demand_model := Some (constant_model (6006 # 100));
     P.competition_model := Some (constant_model (3014 # 100));
     P.label_encoders :=
       [ ("City", ["Delhi"; "Mumbai"]); ("Category", ["Food"; "Tech"]);
         ("Business", ["Cafe"; "Cloud Kitchen"; "Software Startup"]) ];
     P.scaler := Some {| P.mean_ := repeat 0 14; P.scale_ := repeat 1 14 |} |}.

(** In closed examples the two NumPy parameters are instantiated with this
    function; no stated fact depends on the choice. *)
Definition sample_np (x : Q) : Q := x.



(** Both models but a scaler that was never fitted: what [load_models]
    leaves when only the scaler file is missing. *)
Definition unfitted_predictor : P.t :=
  {| P.df := None;
     P.demand_model := Some (constant_model 75);
     P.competition_model := Some (constant_model 40);
     P.label_encoders := [];
     P.scaler := None |}.

(** ** Further methods of [recommendation_engine.py] *)

(** [Series.unique()]: the distinct values, in order of first appearance. *)
Fixpoint Series_unique (l : list string) : list string :=
  match l with
  | [] => []
  | x :: l' => x :: filter (fun y => negb (String.eqb x y)) (Series_unique l')
  end.

Fixpoint insert_sorted (x : string) (l : list string) : list string :=
  match l with
  | [] => [x]
  | y :: l' => if String.leb x y then x :: l else y :: insert_sorted x l'
  end.

(** [sorted(xs)] on strings: ascending order. *)
Definition sorted (l : list string) : list string :=
  fold_right insert_sorted [] l.

(** [get_available_cities]. *)
Definition get_available_cities (self : E.t) (h : E.Heap) : list string :=
  sorted (Series_unique (map (fun r => City (E.base r)) (E.deref h (E.df self)))).

(** [get_available_categories]. *)
Definition get_available_categories (self : E.t) (h : E.Heap) : list string :=
  sorted (Series_unique (map (fun r => Category (E.base r)) (E.deref h (E.df self)))).

(** [Series.min()] and [Series.max()]: NaN, here [None], for an empty
    column. *)
Definition Series_min (l : list Q) : option Q :=
  match l with
  | [] => None
  | x :: l' => Some (fold_left Qmin l' x)
  end.

Definition Series_max (l : list Q) : option Q :=
  match l with
  | [] => None
  | x :: l' => Some (fold_left Qmax l' x)
  end.

(** [int(x)]: the integer part, rounding toward zero. *)
Definition int (x : Q) : Z :=
  if Qle_bool 0 x then Qfloor x else Qceiling x.

(** [get_investment_range]; [int] refuses the NaN of an empty dataset. *)
Definition get_investment_range (self : E.t) (h : E.Heap) : Py.result (Z * Z) :=
  let investment := map (fun r => Investment (E.base r)) (E.deref h (E.df self)) in
  match Series_min investment, Series_max investment with
  | Some lo, Some hi => Py.Ok (int lo, int hi)
  | _, _ => Py.Raise (Py.ValueError "cannot convert float NaN to integer")
  end.

(** Number of lines of a column equal to [x]. *)
Definition occurrences (x : string) (l : list string) : nat :=
  List.length (filter (String.eqb x) l).

(** [Series.value_counts()]: the distinct values keyed by their number of
    occurrences, most frequent first; values with the same count are in
    order of first appearance. *)
Definition value_counts (l : list string) : list (Q * string) :=
  E.sort_desc
    (map (fun x => (inject_Z (Z.of_nat (occurrences x l)), x)) (Series_unique l)).

(** The dictionary [get_city_summary] returns for a city with lines. *)
Module CitySummary.
Record t : Type := {
  total_businesses : Z;
  categories : Z;
  avg_demand : Q;
  avg_competition : Q;
  min_investment : option Q;
  max_investment : option Q;
  avg_investment : Q;
  top_category : string
}.
End CitySummary.

(** [get_city_summary]: [None] is the empty dictionary. *)
Definition get_city_summary (self : E.t) (city : string) (h : E.Heap)
  : Py.result (option CitySummary.t) :=
  let city_data := map E.base (matching city (E.deref h (E.df self))) in
  match city_data with
  | [] => Py.Ok None
  | _ =>
      Py.bind (P.item0 (value_counts (map Category city_data))) (fun top =>
      Py.Ok (Some
        {| CitySummary.total_businesses := Z.of_nat (List.length city_data);
           CitySummary.categories :=
             Z.of_nat (List.length (Series_unique (map Category city_data)));
           CitySummary.avg_demand := Py.round (Py.mean (map Demand city_data)) 1;
           CitySummary.avg_competition :=
             Py.round (Py.mean (map Competition city_data)) 1;
           CitySummary.min_investment := Series_min (map Investment city_data);
           CitySummary.max_investment := Series_max (map Investment city_data);
           CitySummary.avg_investment :=
             Py.round (Py.mean (map Investment city_data)) 0;
           CitySummary.top_category := snd top |}))
  end.

(** One line of the table [get_category_analysis] builds. *)
Module CategoryStats.
Record t : Type := {
  avg_demand : Q;
  avg_competition : Q;
  avg_investment : Q;
  min_investment : option Q;
  max_investment : option Q;
  business_count : Z;
  market_gap : Q
}.
End CategoryStats.



(** ** Further methods of [ml_predictor.py] *)

(** The model directory: the four files [save_models] writes, each present
    or not. *)
Record ModelDir : Type := {
  demand_model_pkl : option P.Model;
  competition_model_pkl : option P.Model;
  label_encoders_pkl : option P.Encoders;
  scaler_pkl : option (option P.StandardScaler)
}.

Definition empty_dir : ModelDir :=
  {| demand_model_pkl := None; competition_model_pkl := None;
     label_encoders_pkl := None; scaler_pkl := None |}.

(** [save_models]: a model is written only when there is one; the encoders
    and the scaler always are. *)
Definition save_models (self : P.t) (dir : ModelDir) : ModelDir :=
  {| demand_model_pkl :=
       match P.demand_model self with
       | Some m => Some m
       | None => demand_model_pkl dir
       end;
     competition_model_pkl :=
       match P.competition_model self with
       | Some m => Some m
       | None => competition_model_pkl dir
       end;
     label_encoders_pkl := Some (P.label_encoders self);
     scaler_pkl := Some (P.scaler self) |}.

(** [load_models]: the four files are read in turn into the predictor; the
    first missing one ends the call with [False], what was read before it
    stays. *)
Definition load_models (self : P.t) (dir : ModelDir) : bool * P.t :=
  match demand_model_pkl dir with
  | None => (false, self)
  | Some dm =>
      let self1 :=
        {| P.df := P.df self; P.demand_model := Some dm;
           P.competition_model := P.competition_model self;
           P.label_encoders := P.label_encoders self; P.scaler := P.scaler self |} in
      match competition_model_pkl dir with
      | None => (false, self1)
      | Some cm =>
          let self2 :=
            {| P.df := P.df self1; P.demand_model := P.demand_model self1;
               P.competition_model := Some cm;
               P.label_encoders := P.label_encoders self1;
               P.scaler := P.scaler self1 |} in
          match label_encoders_pkl dir with
          | None => (false, self2)
          | Some encs =>
              let self3 := P.with_encoders self2 encs in
              match scaler_pkl dir with
              | None => (false, self3)
              | Some sc =>
                  (true,
                   {| P.df := P.df self3; P.demand_model := P.demand_model self3;
                      P.competition_model := P.competition_model self3;
                      P.label_encoders := P.label_encoders self3;
                      P.scaler := sc |})
              end
          end
      end
  end.

(** [d[key]] when [key in d]. *)
Fixpoint lookup {V : Type} (d : list (string * V)) (key : string) : option V :=
  match d with
  | [] => None
  | (k, v) :: d' => if String.eqb key k then Some v else lookup d' key
  end.

(** [xs[:n]]: the first [n] elements, or all but the last [-n] when [n] is
    negative. *)
Definition slice_to {A : Type} (xs : list A) (n : Z) : list A :=
  if (0 <=? n)%Z then firstn (Z.to_nat n) xs
  else firstn (List.length xs - Z.to_nat (- n)) xs.

(** [get_feature_importance], on the dictionary [self.feature_importance]
    that training fills. *)
Definition get_feature_importance
  (feature_importance : list (string * list (string * Q)))
  (model_type : string) (top_n : Z) : list (string * Q) :=
  match lookup feature_importance model_type with
  | None => []
  | Some importance_dict =>
      let sorted_features :=
        map (fun x => (snd x, fst x))
            (E.sort_desc (map (fun x => (snd x, fst x)) importance_dict)) in
      slice_to sorted_features top_n
  end.

(** ** [_initialize_ml_predictor] *)

Section Initialization.

Variable np_log1p : Q -> Q.
Variable np_sqrt : Q -> Q.
Variable split_indices : nat -> list nat * list nat.
Variable RandomForestRegressor_fit : list (list Q) -> list Q -> P.Model.

(** [_initialize_ml_predictor], on the lines of the dataset file and the
    model directory: the engine and the directory afterwards. *)
Definition _initialize_ml_predictor (self : E.t) (csv : list Row)
  (dir : ModelDir) : E.t * ModelDir :=
  let (loaded, predictor) := load_models P.init dir in
  if loaded then (E.with_predictor self predictor, dir)
  else
    match P.train_models np_log1p np_sqrt split_indices
            RandomForestRegressor_fit predictor csv with
    | (Py.Ok _, predictor') =>
        (E.with_predictor self predictor', save_models predictor' dir)
    | (Py.Raise _, _) =>
        ({| E.df := E.df self; E.use_ml := false; E.ml_predictor := None |}, dir)
    end.

End Initialization.

(** ** Order on strings, to state the further properties *)

Definition str_le (a b : string) : Prop := String.leb a b = true.

Definition str_lt (a b : string) : Prop := String.ltb a b = true.




(** ** [app.py] *)

(** [get_score_color_class]: the CSS class the dashboard gives a score. *)
Definition get_score_color_class (score : Q) : string :=
  if Qle_bool 80 score then "score-excellent"
  else if Qle_bool 65 score then "score-good"
  else if Qle_bool 50 score then "score-average"
  else "score-poor".
(** * Properties

  ** Comparison and rounding *)

Lemma lt_iff (a b : Q) : Py.lt a b = true <-> a < b.
Proof.
  unfold Py.lt. rewrite negb_true_iff.
  destruct (Qle_bool b a) eqn:E.
  - apply Qle_bool_iff in E. split; [discriminate | intros; exfalso; lra].
  - split; [intros _ | reflexivity].
    apply Qnot_le_lt. intros H. apply Qle_bool_iff in H. congruence.
Qed.

Lemma lt_false_iff (a b : Q) : Py.lt a b = false <-> b <= a.
Proof.
  rewrite <- not_true_iff_false, lt_iff. split; intros H; lra.
Qed.

Lemma round_half_even_ge (k : Z) (x : Q) :
  inject_Z k <= x -> (k <= Py.round_half_even x)%Z.
Proof.
  intros H. unfold Py.round_half_even.
  assert (k <= Qfloor x)%Z
    by (apply Qfloor_resp_le in H; rewrite Qfloor_Z in H; exact H).
  destruct (Qcompare _ _); [destruct (Z.even _) | |]; lia.
Qed.

Lemma round_half_even_le (k : Z) (x : Q) :
  x <= inject_Z k -> (Py.round_half_even x <= k)%Z.
Proof.
  intros H. unfold Py.round_half_even.
  assert (Hf : (Qfloor x <= k)%Z)
    by (apply Qfloor_resp_le in H; rewrite Qfloor_Z in H; exact H).
  pose proof (Qfloor_le x) as Hx.
  destruct (Z.eq_dec (Qfloor x) k) as [e | n].
  - rewrite e in *.
    destruct (Qcompare_spec (x - inject_Z k) (1 # 2)); try lia; lra.
  - destruct (Qcompare _ _); [destruct (Z.even _) | |]; lia.
Qed.


Lemma pow10_pos (n : nat) : 0 < Py.pow10 n.
Proof.
  unfold Py.pow10. change 0 with (inject_Z 0). rewrite <- Zlt_Qlt.
  apply Z.pow_pos_nonneg; lia.
Qed.

(** Rounding keeps a value between two integers between them. *)
Lemma round_between (x : Q) (n : nat) (a b : Z) :
  inject_Z a <= x <= inject_Z b ->
  inject_Z a <= Py.round x n <= inject_Z b.
Proof.
  intros [Ha Hb]. unfold Py.round.
  pose proof (pow10_pos n) as Hp. unfold Py.pow10 in *.
  set (p := (10 ^ Z.of_nat n)%Z) in *.
  assert (Hlo : (a * p <= Py.round_half_even (x * inject_Z p))%Z).
  { apply round_half_even_ge. rewrite inject_Z_mult. nra. }
  assert (Hhi : (Py.round_half_even (x * inject_Z p) <= b * p)%Z).
  { apply round_half_even_le. rewrite inject_Z_mult. nra. }
  rewrite Zle_Qle, inject_Z_mult in Hlo, Hhi.
  split.
  - apply Qle_shift_div_l; assumption.
  - apply Qle_shift_div_r; assumption.
Qed.


Example round_examples :
  Py.round (7025 # 100) 1 == 702 # 10 /\ Py.round (5075 # 100) 1 == 508 # 10 /\
  Py.round (2992 # 100) 1 == 299 # 10 /\ Py.round (- (5 # 1000)) 2 == 0.
Proof. repeat split; vm_compute; reflexivity. Qed.

(** ** The scoring functions *)


Lemma market_gap_linear (d c : Q) :
  E.calculate_market_gap d c == (d - c) * (1 # 2) + 50.
Proof. unfold E.calculate_market_gap. field. Qed.

Lemma budget_fit_range (b r : Q) :
  0 < b -> 0 < r -> 0 < E.calculate_budget_fit b r <= 100.
Proof.
  intros Hb Hr. unfold E.calculate_budget_fit.
  destruct (Qle_bool r b) eqn:Hle; [lra |].
  assert (Hlt : b < r).
  { apply Qnot_le_lt. intros H. apply Qle_bool_iff in H. congruence. }
  assert (Hq : 0 < b / r * 100 < 100).
  { split.
    - apply Qmult_lt_0_compat; [apply Qlt_shift_div_l; lra | lra].
    - assert (b / r < 1) by (apply Qlt_shift_div_r; lra). lra. }
  unfold Py.min. destruct (Py.lt 100 (b / r * 100)) eqn:Hm; [lra | lra].
Qed.

Lemma budget_fit_zero (r : Q) : 0 < r -> E.calculate_budget_fit 0 r == 0.
Proof.
  intros Hr. unfold E.calculate_budget_fit.
  destruct (Qle_bool r 0) eqn:Hle.
  - apply Qle_bool_iff in Hle. lra.
  - assert (E0 : 0 / r * 100 == 0) by (field; lra).
    unfold Py.min. destruct (Py.lt 100 (0 / r * 100)) eqn:Hm.
    + apply lt_iff in Hm. lra.
    + exact E0.
Qed.

Lemma interest_match_cases (interests : list string) (category : string) :
  (In category interests /\ E.calculate_interest_match interests category = 100) \/
  (~ In category interests /\ E.calculate_interest_match interests category = 0).
Proof.
  unfold E.calculate_interest_match, Py.contains.
  destruct (existsb (String.eqb category) interests) eqn:Hex.
  - left. split; [| reflexivity].
    apply existsb_exists in Hex as [x [Hin Heq]].
    apply String.eqb_eq in Heq. subst. exact Hin.
  - right. split; [| reflexivity].
    intros Hin.
    assert (existsb (String.eqb category) interests = true)
      by (apply existsb_exists; exists category; split;
          [exact Hin | apply String.eqb_refl]).
    congruence.
Qed.

Lemma total_score_round (row : Row) (budget : Q) (interests : list string) :
  E.calculate_total_score row budget interests
  == Py.round (weighted_sum row budget interests) 2.
Proof.
  unfold E.calculate_total_score, weighted_sum, Py.round.
  set (a := _ + _ + _). set (b := _ + _ + _).
  assert (Hab : a == b) by (unfold a, b; ring).
  assert (Hr : Py.round_half_even (a * Py.pow10 2) = Py.round_half_even (b * Py.pow10 2)).
  { unfold Py.round_half_even.
    assert (Hf : Qfloor (a * Py.pow10 2) = Qfloor (b * Py.pow10 2))
      by (rewrite Hab; reflexivity).
    rewrite Hf, Hab. reflexivity. }
  rewrite Hr. reflexivity.
Qed.





(** ** The store *)

Lemma deref_app (h h' : E.Heap) (r : E.ref) :
  allocated h r -> E.deref (h ++ h') r = E.deref h r.
Proof. intros Hr. unfold E.deref. apply app_nth1. exact Hr. Qed.

Lemma deref_last (h : E.Heap) (f : E.DataFrame) :
  E.deref (h ++ [f]) (List.length h) = f.
Proof. unfold E.deref. apply nth_middle. Qed.

Lemma store_last (h : E.Heap) (f g : E.DataFrame) :
  E.store (List.length h) f (h ++ [g]) = h ++ [f].
Proof. induction h as [| x h IH]; simpl; [reflexivity | rewrite IH; reflexivity]. Qed.

(** ** Column assignment and [apply] *)

Lemma apply_ok {A B : Type} (f : A -> Py.result B) (g : A -> B) (l : list A) :
  (forall x, In x l -> f x = Py.Ok (g x)) ->
  P.apply f l = Py.Ok (map g l).
Proof.
  induction l as [| x l IH]; intros H; simpl; [reflexivity |].
  rewrite (H x (or_introl eq_refl)). simpl.
  rewrite IH by (intros y Hy; apply H; right; exact Hy).
  reflexivity.
Qed.

Lemma assign_score_map (f : E.DataFrame) (g : E.FrameRow -> Q) :
  E.assign_score f (map g f)
  = map (fun r => {| E.base := E.base r; E.score := Some (g r);
                     E.explanation := E.explanation r |}) f.
Proof. induction f as [| r f IH]; simpl; [reflexivity | rewrite IH; reflexivity]. Qed.

Lemma assign_explanation_map (f : E.DataFrame) (g : E.FrameRow -> string) :
  E.assign_explanation f (map g f)
  = map (fun r => {| E.base := E.base r; E.score := E.score r;
                     E.explanation := Some (g r) |}) f.
Proof. induction f as [| r f IH]; simpl; [reflexivity | rewrite IH; reflexivity]. Qed.

(** ** Sorting *)

Section Sorting.

Context {A : Type}.

Lemma insert_desc_perm (x : Q * A) (l : list (Q * A)) :
  Permutation (E.insert_desc x l) (x :: l).
Proof.
  induction l as [| y l IH]; simpl; [apply Permutation_refl |].
  destruct (Qle_bool (fst y) (fst x)); [apply Permutation_refl |].
  eapply Permutation_trans; [apply perm_skip, IH | apply perm_swap].
Qed.

Lemma sort_desc_perm (l : list (Q * A)) : Permutation (E.sort_desc l) l.
Proof.
  induction l as [| x l IH]; simpl; [apply Permutation_refl |].
  eapply Permutation_trans; [apply insert_desc_perm | apply perm_skip, IH].
Qed.

Lemma insert_desc_sorted (x : Q * A) (l : list (Q * A)) :
  StronglySorted key_ge l -> StronglySorted key_ge (E.insert_desc x l).
Proof.
  induction l as [| y l IH]; intros Hs; simpl.
  - constructor; [constructor | constructor].
  - inversion Hs as [| ? ? Hl Hy]; subst.
    destruct (Qle_bool (fst y) (fst x)) eqn:Hle.
    + apply Qle_bool_iff in Hle.
      constructor; [exact Hs |].
      constructor; [exact Hle |].
      eapply Forall_impl; [| exact Hy].
      intros z Hz. unfold key_ge in *. lra.
    + assert (Hlt : fst x < fst y).
      { apply Qnot_le_lt. intros H. apply Qle_bool_iff in H. congruence. }
      constructor; [apply IH; exact Hl |].
      apply Forall_forall. intros z Hz.
      apply (Permutation_in _ (insert_desc_perm x l)) in Hz.
      destruct Hz as [-> | Hz].
      * unfold key_ge. lra.
      * rewrite Forall_forall in Hy. apply Hy. exact Hz.
Qed.

Lemma sort_desc_sorted (l : list (Q * A)) : StronglySorted key_ge (E.sort_desc l).
Proof.
  induction l as [| x l IH]; simpl; [constructor | apply insert_desc_sorted, IH].
Qed.

End Sorting.

Lemma firstn_sorted {A : Type} (R : A -> A -> Prop) (n : nat) (l : list A) :
  StronglySorted R l -> StronglySorted R (firstn n l).
Proof.
  revert n. induction l as [| x l IH]; intros n Hs.
  - rewrite firstn_nil. constructor.
  - destruct n as [| n]; simpl; [constructor |].
    inversion Hs as [| ? ? Hl Hx]; subst.
    constructor; [apply IH; exact Hl |].
    apply Forall_forall. intros y Hy.
    rewrite Forall_forall in Hx. apply Hx.
    rewrite <- (firstn_skipn n l). apply in_or_app. left. exact Hy.
Qed.

Lemma map_sorted {A B : Type} (R : A -> A -> Prop) (S : B -> B -> Prop)
  (f : A -> B) (l : list A) :
  (forall a b, In a l -> In b l -> R a b -> S (f a) (f b)) ->
  StronglySorted R l -> StronglySorted S (map f l).
Proof.
  intros HRS Hs. induction Hs as [| x l Hl IH Hx]; simpl; constructor.
  - apply IH. intros a b Ha Hb. apply HRS; right; assumption.
  - apply Forall_map. apply Forall_forall. intros y Hy.
    rewrite Forall_forall in Hx.
    apply HRS; [left; reflexivity | right; exact Hy | apply Hx; exact Hy].
Qed.

Lemma insert_desc_map {A B : Type} (g : A -> B) (x : Q * A) (l : list (Q * A)) :
  E.insert_desc (fst x, g (snd x)) (map (fun y => (fst y, g (snd y))) l)
  = map (fun y => (fst y, g (snd y))) (E.insert_desc x l).
Proof.
  induction l as [| y l IH]; simpl; [reflexivity |].
  destruct (Qle_bool (fst y) (fst x)); simpl; [reflexivity |].
  rewrite IH. reflexivity.
Qed.

Lemma sort_desc_map {A B : Type} (g : A -> B) (l : list (Q * A)) :
  E.sort_desc (map (fun y => (fst y, g (snd y))) l)
  = map (fun y => (fst y, g (snd y))) (E.sort_desc l).
Proof.
  induction l as [| x l IH]; simpl; [reflexivity |].
  rewrite IH. apply insert_desc_map.
Qed.

(** ** [get_recommendations] *)

Lemma scored_frame (budget : Q) (interests : list string) (m : E.DataFrame) :
  E.assign_explanation
    (E.assign_score m
       (map (fun r => E.calculate_total_score (E.base r) budget interests) m))
    (map (fun r => E.get_score_explanation (E.base r) budget interests)
       (E.assign_score m
          (map (fun r => E.calculate_total_score (E.base r) budget interests) m)))
  = map (scored_row budget interests) (map E.base m).
Proof.
  rewrite assign_explanation_map, assign_score_map, !map_map. reflexivity.
Qed.

Lemma nlargest_scored (budget : Q) (interests : list string) (n : Z)
  (rows : list Row) :
  E.nlargest n (map (scored_row budget interests) rows)
  = Py.Ok (map (scored_row budget interests)
             (firstn (Z.to_nat n)
                (map snd (E.sort_desc (keyed budget interests rows))))).
Proof.
  unfold E.nlargest.
  rewrite (apply_ok _ (fun r => (E.calculate_total_score (E.base r) budget interests, r)))
    by (intros r Hr; apply in_map_iff in Hr as [row [<- _]]; reflexivity).
  simpl. f_equal.
  rewrite map_map.
  change (map (fun x : Row => _) rows)
    with (map (fun row => (E.calculate_total_score row budget interests,
                           scored_row budget interests row)) rows).
  assert (Hk : map (fun row => (E.calculate_total_score row budget interests,
                                scored_row budget interests row)) rows
               = map (fun y => (fst y, scored_row budget interests (snd y)))
                   (keyed budget interests rows))
    by (unfold keyed; rewrite map_map; reflexivity).
  rewrite Hk, sort_desc_map, map_map. simpl.
  rewrite <- (map_map snd (scored_row budget interests)).
  apply firstn_map.
Qed.

Lemma to_dict_scored (budget : Q) (interests : list string) (rows : list Row) :
  P.apply (E.to_dict budget interests) (map (scored_row budget interests) rows)
  = Py.Ok (map (recommendation_of budget interests) rows).
Proof.
  rewrite (apply_ok _ (fun r => recommendation_of budget interests (E.base r)))
    by (intros r Hr; apply in_map_iff in Hr as [row [<- _]]; reflexivity).
  rewrite map_map. reflexivity.
Qed.

(** What a call returns and how it leaves the store: three new frames (two
    when nothing is selected) after the frames that were there. *)
Lemma get_recommendations_run (self : E.t) (city : string) (budget : Q)
  (interests : list string) (top_n : Z) (h : E.Heap) :
  exists fresh : list E.DataFrame,
    E.get_recommendations self city budget interests top_n h
    = (Py.Ok (ranking budget interests top_n
                (map E.base (matching city (E.deref h (E.df self))))),
       h ++ fresh).
Proof.
  unfold E.get_recommendations, E.alloc.
  fold (matching city (E.deref h (E.df self))).
  set (m := matching city (E.deref h (E.df self))).
  rewrite deref_last.
  rewrite deref_last.
  destruct m as [| r m'] eqn:Hm.
  - exists [[]; []]. rewrite <- app_assoc.
    unfold ranking, keyed. simpl. rewrite firstn_nil. reflexivity.
  - rewrite <- Hm. clear Hm.
    rewrite store_last, deref_last, store_last, deref_last.
    rewrite scored_frame, nlargest_scored.
    rewrite deref_last, to_dict_scored.
    eexists. unfold ranking. rewrite <- !app_assoc. reflexivity.
Qed.



(** C9.  On a store where the engine's dataset is allocated, a call leaves
    every frame that was there as it was, the dataset among them, and a
    second call with the same arguments returns the same list. *)
Theorem get_recommendations_idempotent (self : E.t) (city : string) (budget : Q)
  (interests : list string) (top_n : Z) (h : E.Heap) :
  allocated h (E.df self) ->
  let first := E.get_recommendations self city budget interests top_n h in
  let second := E.get_recommendations self city budget interests top_n (snd first) in
  fst second = fst first /\
  (forall r, allocated h r -> E.deref (snd first) r = E.deref h r) /\
  E.deref (snd first) (E.df self) = E.deref h (E.df self) /\
  E.deref (snd second) (E.df self) = E.deref h (E.df self).
Proof.
  intros Hdf first second.
  destruct (get_recommendations_run self city budget interests top_n h)
    as [fresh1 Hrun1].
  fold first in Hrun1.
  assert (Hkeep : forall r, allocated h r -> E.deref (snd first) r = E.deref h r)
    by (intros r Hr; rewrite Hrun1; simpl; apply deref_app; exact Hr).
  destruct (get_recommendations_run self city budget interests top_n (snd first))
    as [fresh2 Hrun2].
  fold second in Hrun2.
  assert (Hdf1 : allocated (snd first) (E.df self)).
  { rewrite Hrun1. simpl. unfold allocated in *. rewrite length_app. lia. }
  split; [| split; [exact Hkeep | split; [apply Hkeep; exact Hdf |]]].
  - rewrite Hrun2. simpl. rewrite (Hkeep _ Hdf). rewrite Hrun1. reflexivity.
  - rewrite Hrun2. simpl. rewrite deref_app by exact Hdf1. apply Hkeep. exact Hdf.
Qed.

Lemma get_recommendations_idempotent_witness :
  fst (E.get_recommendations sample_engine "Mumbai" 200 ["Tech"] 3
         (snd (E.get_recommendations sample_engine "Mumbai" 200 ["Tech"] 3
                 sample_heap)))
  = fst (E.get_recommendations sample_engine "Mumbai" 200 ["Tech"] 3 sample_heap) /\
  E.deref (snd (E.get_recommendations sample_engine "Mumbai" 200 ["Tech"] 3
                  sample_heap)) 0%nat
  = E.read_csv sample_csv.
Proof.
  assert (Hdf : allocated sample_heap (E.df sample_engine))
    by (unfold allocated; simpl; lia).
  destruct (get_recommendations_idempotent sample_engine "Mumbai" 200 ["Tech"] 3
              sample_heap Hdf) as [Hsame [_ [Hdata _]]].
  split; [exact Hsame | exact Hdata].
Defined.


(** ** The fallback table *)

Lemma dict_get_in {V : Type} (d : list (string * V)) (key : string) (default : V) :
  In key (map fst d) -> In (key, P.dict_get d key default) d.
Proof.
  induction d as [| [k v] d IH]; simpl; [tauto |].
  intros Hin. destruct (String.eqb key k) eqn:Hk.
  - apply String.eqb_eq in Hk. subst. left. reflexivity.
  - right. apply IH. destruct Hin as [-> | Hin]; [| exact Hin].
    rewrite String.eqb_refl in Hk. discriminate.
Qed.

Lemma dict_get_default {V : Type} (d : list (string * V)) (key : string)
  (default : V) :
  ~ In key (map fst d) -> P.dict_get d key default = default.
Proof.
  induction d as [| [k v] d IH]; simpl; [reflexivity |].
  intros Hin. destruct (String.eqb key k) eqn:Hk.
  - apply String.eqb_eq in Hk. subst. tauto.
  - apply IH. tauto.
Qed.

Lemma fallback_in_bands (category : string) :
  50 <= demand (P._get_fallback_prediction category) <= 100 /\
  20 <= competition (P._get_fallback_prediction category) <= 80.
Proof.
  unfold P._get_fallback_prediction, P.fallback_predictions, P.dict_get.
  repeat match goal with
         | |- context [String.eqb category ?k] => destruct (String.eqb category k)
         end; simpl; lra.
Qed.

Lemma fallback_pair (category : string) :
  (demand (P._get_fallback_prediction category),
   competition (P._get_fallback_prediction category))
  = P.dict_get P.fallback_predictions category (70, 60).
Proof.
  unfold P._get_fallback_prediction. cbn [demand competition].
  symmetry. apply surjective_pairing.
Qed.

(** C7.  The fallback prediction has confidence 0.6 and quality "Medium";
    its demand and competition come from a table with exactly the seven
    entries Food, Tech, Healthcare, Education, Fitness, Tourism, Retail,
    and are 70 and 60 for every other category.  It is what a predictor
    with both models returns whenever a step of the prediction raises. *)
Theorem fallback_prediction_table (category : string) :
  let r := P._get_fallback_prediction category in
  P.fallback_predictions
  = [ ("Food", (75, 65)); ("Tech", (80, 55)); ("Healthcare", (85, 45));
      ("Education", (70, 60)); ("Fitness", (72, 50)); ("Tourism", (68, 55));
      ("Retail", (65, 70)) ] /\
  map fst P.fallback_predictions = fallback_categories /\
  confidence r = 6 # 10 /\
  prediction_quality r = "Medium" /\
  market_gap r = demand r - competition r /\
  (In category fallback_categories ->
   In (category, (demand r, competition r)) P.fallback_predictions) /\
  (~ In category fallback_categories -> demand r = 70 /\ competition r = 60) /\
  (forall (np_log1p np_sqrt : Q -> Q) (self : P.t) (city business : string)
          (investment normal : Q) (dm cm : P.Model) (e : Py.exception),
      P.demand_model self = Some dm ->
      P.competition_model self = Some cm ->
      P.try_predict dm cm (P.scaler self)
        (fst (P.prepare_features np_log1p np_sqrt
                (P.input_data city category business investment)
                (P.label_encoders self))) normal = Py.Raise e ->
      fst (P.predict_single_business np_log1p np_sqrt self
             city category business investment normal) = Py.Ok r).
Proof.
  intros r.
  split; [reflexivity |]. split; [reflexivity |].
  split; [reflexivity |]. split; [reflexivity |]. split; [reflexivity |].
  split; [| split].
  - intros Hin. unfold r. rewrite fallback_pair. apply dict_get_in. exact Hin.
  - intros Hin. pose proof (fallback_pair category) as Hp.
    rewrite dict_get_default in Hp by exact Hin.
    unfold r. split; congruence.
  - intros np_log1p np_sqrt self city business investment normal dm cm e Hdm Hcm Htry.
    unfold P.predict_single_business. rewrite Hdm, Hcm.
    destruct (P.prepare_features _ _ _ _) as [features encs]. simpl in Htry |- *.
    rewrite Htry. reflexivity.
Qed.

Lemma fallback_prediction_table_witness :
  demand (P._get_fallback_prediction "Bookshop") = 70 /\
  competition (P._get_fallback_prediction "Bookshop") = 60 /\
  In ("Tech", (demand (P._get_fallback_prediction "Tech"),
               competition (P._get_fallback_prediction "Tech")))
     P.fallback_predictions /\
  fst (P.predict_single_business sample_np sample_np unfitted_predictor
         "Mumbai" "Tech" "Arcade" 250 0)
  = Py.Ok (P._get_fallback_prediction "Tech").
Proof.
  split; [| split; [| split]].
  - apply (fallback_prediction_table "Bookshop").
    simpl. intros H. repeat destruct H as [H | H]; try discriminate H; exact H.
  - apply (fallback_prediction_table "Bookshop").
    simpl. intros H. repeat destruct H as [H | H]; try discriminate H; exact H.
  - apply (fallback_prediction_table "Tech"). simpl. tauto.
  - destruct (fallback_prediction_table "Tech") as (_ & _ & _ & _ & _ & _ & _ & Hraise).
    apply (Hraise sample_np sample_np unfitted_predictor "Mumbai" "Arcade" 250 0
             (constant_model 75) (constant_model 40) Py.NotFittedError);
      reflexivity.
Defined.

(** ** Confidence and quality *)

Lemma confidence_capped (features : list Q) (normal : Q) :
  P._calculate_confidence features normal == Qmin ((85 # 100) + normal) 1 /\
  P._calculate_confidence features normal <= 1.
Proof.
  unfold P._calculate_confidence, Py.min.
  destruct (Py.lt 1 ((85 # 100) + normal)) eqn:Hlt.
  - apply lt_iff in Hlt. split; [| lra].
    symmetry. apply Q.min_r. lra.
  - apply lt_false_iff in Hlt. split; [| exact Hlt].
    symmetry. apply Q.min_l. exact Hlt.
Qed.

Lemma confidence_nonneg_iff (features : list Q) (normal : Q) :
  0 <= P._calculate_confidence features normal <-> - (85 # 100) <= normal.
Proof.
  unfold P._calculate_confidence, Py.min.
  destruct (Py.lt 1 ((85 # 100) + normal)) eqn:Hlt.
  - apply lt_iff in Hlt. split; intros; lra.
  - split; intros; lra.
Qed.

Lemma quality_thresholds (c : Q) :
  (P.quality c = "High" <-> 8 # 10 < c) /\
  (P.quality c = "Medium" <-> 6 # 10 < c <= 8 # 10) /\
  (P.quality c = "Low" <-> c <= 6 # 10).
Proof.
  unfold P.quality.
  destruct (Py.lt (8 # 10) c) eqn:H8; [apply lt_iff in H8 | apply lt_false_iff in H8];
    (destruct (Py.lt (6 # 10) c) eqn:H6;
     [apply lt_iff in H6 | apply lt_false_iff in H6]);
    repeat split; intros; try discriminate; try lra; try reflexivity.
Qed.

(** C8.  A draw of -0.9 gives the confidence estimate 0.85 - 0.9 = -0.05,
    below the range [0,1]; the prediction then reports confidence -0.05 and
    quality "Low". *)
Theorem confidence_below_range :
  P._calculate_confidence [] (- (9 # 10)) == - (5 # 100) /\
  ~ (0 <= P._calculate_confidence [] (- (9 # 10)) <= 1) /\
  exists r : Prediction,
    fst (P.predict_single_business sample_np sample_np sample_predictor
           "Mumbai" "Food" "Cafe" 250 (- (9 # 10))) = Py.Ok r /\
    confidence r == - (5 # 100) /\
    prediction_quality r = "Low".
Proof.
  split; [vm_compute; reflexivity |].
  split.
  - intros [H _]. apply confidence_nonneg_iff in H. vm_compute in H. apply H. reflexivity.
  - eexists. split; [vm_compute; reflexivity |].
    split; [vm_compute; reflexivity | reflexivity].
Qed.

(** ** [predict_single_business] *)

Lemma clip_between (x lo hi : Q) : lo <= hi -> lo <= Py.clip x lo hi <= hi.
Proof.
  intros H. unfold Py.clip. split.
  - apply Q.min_glb; [apply Q.le_max_r | exact H].
  - apply Q.le_min_r.
Qed.

Lemma try_predict_ok (dm cm : P.Model) (sc : option P.StandardScaler)
  (features : Py.result (list (list Q))) (normal : Q) (r : Prediction) :
  P.try_predict dm cm sc features normal = Py.Ok r ->
  exists (fs : list (list Q)) (f0 : list Q) (X : list (list Q))
         (d c : Q) (ds cs : list Q),
    features = Py.Ok fs /\
    P.scaler_transform sc fs = Py.Ok (f0 :: X) /\
    dm (f0 :: X) = Py.Ok (d :: ds) /\
    cm (f0 :: X) = Py.Ok (c :: cs) /\
    r = P.ml_result (Py.clip d 50 100) (Py.clip c 20 80)
          (P._calculate_confidence f0 normal).
Proof.
  unfold P.try_predict. intros H.
  destruct features as [fs | e]; simpl in H; [| discriminate].
  destruct (P.scaler_transform sc fs) as [X | e] eqn:HX; simpl in H; [| discriminate].
  destruct (dm X) as [[| d ds] | e] eqn:Hd; simpl in H; try discriminate.
  destruct (cm X) as [[| c cs] | e] eqn:Hc; simpl in H; try discriminate.
  destruct X as [| f0 X]; simpl in H; [discriminate |].
  injection H as <-.
  exists fs, f0, X, d, c, ds, cs. repeat split; assumption.
Qed.

Lemma ml_result_in_bands (d c conf : Q) :
  let r := P.ml_result (Py.clip d 50 100) (Py.clip c 20 80) conf in
  50 <= demand r <= 100 /\ 20 <= competition r <= 80 /\
  - (30) <= market_gap r <= 80.
Proof.
  intros r. unfold r, P.ml_result. cbn [demand competition market_gap].
  assert (Hd : 50 <= Py.clip d 50 100 <= 100) by (apply clip_between; lra).
  assert (Hc : 20 <= Py.clip c 20 80 <= 80) by (apply clip_between; lra).
  split; [| split].
  - apply (round_between _ 1 50 100). exact Hd.
  - apply (round_between _ 1 20 80). exact Hc.
  - apply (round_between _ 1 (-30) 80).
    change (inject_Z (-30)) with (- (30)). change (inject_Z 80) with 80. lra.
Qed.

Lemma quality_values (c : Q) :
  P.quality c = "High" \/ P.quality c = "Medium" \/ P.quality c = "Low".
Proof.
  unfold P.quality. destruct (Py.lt (8 # 10) c); [tauto |].
  destruct (Py.lt (6 # 10) c); tauto.
Qed.

Lemma untrained_cases (self : P.t) :
  ~ trained self -> P.demand_model self = None \/ P.competition_model self = None.
Proof.
  intros H. destruct (P.demand_model self) as [dm |] eqn:Hd; [| tauto].
  destruct (P.competition_model self) as [cm |] eqn:Hc; [| tauto].
  exfalso. apply H. exists dm, cm. rewrite Hd, Hc. split; reflexivity.
Qed.

(** C2, as the code has it.  With both models present
    [predict_single_business] never raises, whatever the strings and the
    numbers: it returns the model's prediction or, when a step raises, the
    fallback prediction, in both cases with demand in [50,100], competition
    in [20,80] and a quality among High, Medium and Low.  Without both
    models it raises [ValueError] and leaves the predictor unchanged. *)
Theorem predict_single_business_total (np_log1p np_sqrt : Q -> Q) (self : P.t)
  (city category business : string) (investment normal : Q) :
  let call := P.predict_single_business np_log1p np_sqrt self
                city category business investment normal in
  (trained self ->
   exists r : Prediction,
     fst call = Py.Ok r /\
     50 <= demand r <= 100 /\ 20 <= competition r <= 80 /\
     (prediction_quality r = "High" \/ prediction_quality r = "Medium" \/
      prediction_quality r = "Low")) /\
  (~ trained self ->
   call = (Py.Raise (Py.ValueError "Models not trained. Call train_models() first."),
           self)).
Proof.
  intros call. unfold call, P.predict_single_business. split.
  - intros (dm & cm & Hdm & Hcm). rewrite Hdm, Hcm.
    destruct (P.prepare_features _ _ _ _) as [features encs].
    destruct (P.try_predict _ _ _ _ _) as [r | e] eqn:Htry; cbn [fst].
    + exists r. split; [reflexivity |].
      apply try_predict_ok in Htry
        as (fs & f0 & X & d & c & ds & cs & _ & _ & _ & _ & ->).
      pose proof (ml_result_in_bands d c (P._calculate_confidence f0 normal))
        as (Hd & Hc & _).
      split; [exact Hd | split; [exact Hc | apply quality_values]].
    + exists (P._get_fallback_prediction category). split; [reflexivity |].
      pose proof (fallback_in_bands category) as [Hd Hc].
      split; [exact Hd | split; [exact Hc | right; left; reflexivity]].
  - intros Hun. destruct (untrained_cases self Hun) as [H | H]; rewrite H.
    + reflexivity.
    + destruct (P.demand_model self); reflexivity.
Qed.

Lemma sample_predictor_trained : trained sample_predictor.
Proof.
  exists (constant_model (6006 # 100)), (constant_model (3014 # 100)).
  split; reflexivity.
Qed.

Lemma predict_single_business_total_witness :
  exists r : Prediction,
    fst (P.predict_single_business sample_np sample_np sample_predictor
           "Atlantis" "Submarines" "Sub Shop" 250 0) = Py.Ok r /\
    50 <= demand r <= 100 /\ 20 <= competition r <= 80.
Proof.
  destruct (proj1 (predict_single_business_total sample_np sample_np
                     sample_predictor "Atlantis" "Submarines" "Sub Shop" 250 0)
              sample_predictor_trained) as (r & Hok & Hd & Hc & _).
  exists r. split; [exact Hok | split; [exact Hd | exact Hc]].
Defined.

(** In the initial state, before [train_models] or [load_models], the call
    raises instead of returning the fallback prediction. *)
Lemma predict_untrained_raises :
  fst (P.predict_single_business sample_np sample_np P.init
         "Mumbai" "Food" "Cafe" 250 0)
  = Py.Raise (Py.ValueError "Models not trained. Call train_models() first.") /\
  fst (P.predict_single_business sample_np sample_np P.init
         "Mumbai" "Food" "Cafe" 250 0)
  <> Py.Ok (P._get_fallback_prediction "Food").
Proof. split; [reflexivity | discriminate]. Qed.




(** ** [prepare_features] *)

Lemma find_index_contains (classes : list string) (x : string) :
  Py.contains classes x = true -> exists i, P.find_index x classes = Some i.
Proof.
  unfold Py.contains. induction classes as [| y classes IH]; simpl; [discriminate |].
  destruct (String.eqb x y); simpl; [intros _; exists O; reflexivity |].
  intros H. destruct (IH H) as [i Hi]. exists (S i). rewrite Hi. reflexivity.
Qed.

Lemma apply_total {A B : Type} (f : A -> Py.result B) (xs : list A) :
  (forall x, exists b, f x = Py.Ok b) ->
  exists bs, P.apply f xs = Py.Ok bs /\ List.length bs = List.length xs.
Proof.
  intros Hf. induction xs as [| x xs [bs [IH Hlen]]]; simpl.
  - exists []. split; reflexivity.
  - destruct (Hf x) as [b Hb]. rewrite Hb, IH. simpl.
    exists (b :: bs). split; [reflexivity | simpl; rewrite Hlen; reflexivity].
Qed.

(** Encoding a column never raises: a value the frozen encoder does not know
    gets the code -1. *)
Lemma encode_ok (col : string) (values : list string) (encs : P.Encoders) :
  exists codes encs',
    P.encode col values encs = (Py.Ok codes, encs') /\
    List.length codes = List.length values.
Proof.
  unfold P.encode. destruct (P.get col encs) as [classes |].
  - destruct (apply_total
                (fun x => if Py.contains classes x
                          then Py.bind (P.transform classes [x]) P.item0
                          else Py.Ok (-1)%Z) values) as [codes [Hc Hlen]].
    + intros x. destruct (Py.contains classes x) eqn:Hin; [| eexists; reflexivity].
      destruct (find_index_contains classes x Hin) as [i Hi].
      simpl. rewrite Hi. simpl. eexists. reflexivity.
    + exists codes, encs. rewrite Hc. split; [reflexivity | exact Hlen].
  - unfold P.fit_transform. eexists. eexists. split; [reflexivity |].
    apply length_map.
Qed.

Lemma encode_unseen (col x : string) (classes : list string) (encs : P.Encoders) :
  P.get col encs = Some classes -> Py.contains classes x = false ->
  P.encode col [x] encs = (Py.Ok [(-1)%Z], encs).
Proof.
  intros Hget Hin. unfold P.encode. rewrite Hget. simpl. rewrite Hin. reflexivity.
Qed.

Lemma encode_one (col v : string) (encs : P.Encoders) :
  exists code encs', P.encode col [v] encs = (Py.Ok [code], encs').
Proof.
  destruct (encode_ok col [v] encs) as (codes & encs' & He & Hlen).
  destruct codes as [| code [| ? ?]]; try discriminate Hlen.
  exists code, encs'. exact He.
Qed.

(** [prepare_features] never raises. *)
Lemma prepare_features_ok (np_log1p np_sqrt : Q -> Q) (df : list Row)
  (encs : P.Encoders) :
  exists fs encs', P.prepare_features np_log1p np_sqrt df encs = (Py.Ok fs, encs').
Proof.
  unfold P.prepare_features.
  destruct (encode_ok "City" (map City df) encs) as (c & e1 & -> & _).
  destruct (encode_ok "Category" (map Category df) e1) as (g & e2 & -> & _).
  destruct (encode_ok "Business" (map Business df) e2) as (b & e3 & -> & _).
  eexists. eexists. reflexivity.
Qed.

(** At inference time the frame has one line, so every group is that line:
    the aggregate columns are the input investment, a standard deviation
    of 0, a count of 1 and the placeholder 0 for demand and competition,
    whatever the encoders and the dataset they were fitted on. *)
Lemma inference_features (np_log1p np_sqrt : Q -> Q)
  (city category business : string) (investment : Q) (encs : P.Encoders) :
  exists (fi : list Q) (encs' : P.Encoders),
    P.prepare_features np_log1p np_sqrt
      (P.input_data city category business investment) encs
    = (Py.Ok [fi], encs') /\
    nth 3 fi 0 = np_log1p investment /\
    Forall2 Qeq (skipn 4 fi)
      [investment / 1000000; investment; 0; 1; 0; 0; investment; 0; 0; 0].
Proof.
  unfold P.prepare_features, P.input_data. cbn [map City Category Business].
  destruct (encode_one "City" city encs) as (c & e1 & ->).
  destruct (encode_one "Category" category e1) as (g & e2 & ->).
  destruct (encode_one "Business" business e2) as (b & e3 & ->).
  eexists. eexists. split; [reflexivity |].
  cbn [P.zip_codes map].
  unfold P.feature_columns, P.city_stats, P.category_stats.
  cbn [P.City_encoded P.Category_encoded P.Business_encoded P.row filter].
  rewrite !Z.eqb_refl.
  cbn [map P.row Investment Demand Competition P.std P.fillna app nth skipn].
  split; [reflexivity |].
  repeat (constructor; [first [reflexivity | unfold Py.mean, Py.sum, Py.len; simpl; field] |]).
  constructor.
Qed.

Lemma train_models_encoders (np_log1p np_sqrt : Q -> Q)
  (split_indices : nat -> list nat * list nat)
  (fit : list (list Q) -> list Q -> P.Model) (csv : list Row) :
  P.label_encoders
    (snd (P.train_models np_log1p np_sqrt split_indices fit P.init csv))
  = snd (P.prepare_features np_log1p np_sqrt csv []).
Proof.
  unfold P.train_models. cbn [P.df P.init P.label_encoders].
  destruct (P.prepare_features np_log1p np_sqrt csv []) as [[fs | e] encs];
    [| reflexivity].
  destruct (split_indices (List.length csv)) as [train test].
  destruct (P.select train fs); reflexivity.
Qed.

Lemma sample_features (np_log1p np_sqrt : Q -> Q) :
  exists (ft fi : list Q) (others : list (list Q)),
    fst (P.prepare_features np_log1p np_sqrt sample_csv []) = Py.Ok (ft :: others) /\
    fst (P.prepare_features np_log1p np_sqrt
           (P.input_data "Mumbai" "Food" "Cloud Kitchen" 100)
           (snd (P.prepare_features np_log1p np_sqrt sample_csv [])))
    = Py.Ok [fi] /\
    firstn 5 fi = firstn 5 ft /\
    Forall2 Qeq (map (fun i => nth i ft 0) [5; 7; 8; 9; 10; 12; 13]%nat)
      [200; 2; 70; 45; 150; 85; 35] /\
    Forall2 Qeq (map (fun i => nth i fi 0) [5; 7; 8; 9; 10; 12; 13]%nat)
      [100; 1; 0; 0; 100; 0; 0] /\
    ~ Forall2 Qeq fi ft.
Proof.
  eexists. eexists. eexists.
  split; [vm_compute; reflexivity |].
  split; [vm_compute; reflexivity |].
  split; [reflexivity |].
  split; [repeat (constructor; [vm_compute; reflexivity |]); constructor |].
  split; [repeat (constructor; [vm_compute; reflexivity |]); constructor |].
  intros H.
  do 5 (apply Forall2_cons_iff in H; destruct H as [_ H]).
  apply Forall2_cons_iff in H. destruct H as [H _].
  vm_compute in H. discriminate H.
Qed.

(** C1.  On the sample dataset, the line (Mumbai, Food, Cloud Kitchen, 100)
    gets at training time the aggregates of its city (mean investment 200,
    2 lines, mean demand 70, mean competition 45) and of its category (mean
    investment 150, mean demand 85, mean competition 35); the same tuple
    given to the predictor trained on that dataset gets the aggregates of
    the one-line input frame (100, 1, 0, 0 and 100, 0, 0).  The codes and
    the investment columns agree. *)
Theorem inference_aggregates_differ (np_log1p np_sqrt : Q -> Q)
  (split_indices : nat -> list nat * list nat)
  (fit : list (list Q) -> list Q -> P.Model) :
  let predictor :=
    snd (P.train_models np_log1p np_sqrt split_indices fit P.init sample_csv) in
  let training := fst (P.prepare_features np_log1p np_sqrt sample_csv []) in
  let inference :=
    fst (P.prepare_features np_log1p np_sqrt
           (P.input_data "Mumbai" "Food" "Cloud Kitchen" 100)
           (P.label_encoders predictor)) in
  exists (ft fi : list Q) (others : list (list Q)),
    training = Py.Ok (ft :: others) /\
    inference = Py.Ok [fi] /\
    firstn 5 fi = firstn 5 ft /\
    Forall2 Qeq (map (fun i => nth i ft 0) [5; 7; 8; 9; 10; 12; 13]%nat)
      [200; 2; 70; 45; 150; 85; 35] /\
    Forall2 Qeq (map (fun i => nth i fi 0) [5; 7; 8; 9; 10; 12; 13]%nat)
      [100; 1; 0; 0; 100; 0; 0] /\
    ~ Forall2 Qeq fi ft.
Proof.
  cbv zeta. rewrite train_models_encoders. apply sample_features.
Qed.

(** ** The basic prediction *)





(** * Further properties

    ** Rounding, continued *)



Lemma round_half_even_comp (x y : Q) :
  x == y -> Py.round_half_even x = Py.round_half_even y.
Proof.
  intros H. unfold Py.round_half_even.
  assert (Hf : Qfloor x = Qfloor y) by (rewrite H; reflexivity).
  rewrite Hf, H. reflexivity.
Qed.

Lemma round_comp (x y : Q) (n : nat) : x == y -> Py.round x n == Py.round y n.
Proof.
  intros H. unfold Py.round.
  rewrite (round_half_even_comp (x * Py.pow10 n) (y * Py.pow10 n))
    by (rewrite H; reflexivity).
  reflexivity.
Qed.


Lemma round_half_even_mono (x y : Q) :
  x <= y -> (Py.round_half_even x <= Py.round_half_even y)%Z.
Proof.
  intros H. pose proof (Qfloor_resp_le x y H) as Hf.
  unfold Py.round_half_even.
  destruct (Z.eq_dec (Qfloor x) (Qfloor y)) as [e | n].
  - rewrite e.
    destruct (Qcompare_spec (x - inject_Z (Qfloor y)) (1 # 2));
      destruct (Qcompare_spec (y - inject_Z (Qfloor y)) (1 # 2));
      try destruct (Z.even _); try lia; lra.
  - destruct (Qcompare _ _); destruct (Qcompare _ _);
      repeat destruct (Z.even _); lia.
Qed.

Lemma round_mono (x y : Q) (n : nat) : x <= y -> Py.round x n <= Py.round y n.
Proof.
  intros H. unfold Py.round. pose proof (pow10_pos n) as Hp.
  assert (Hm : x * Py.pow10 n <= y * Py.pow10 n) by nra.
  apply round_half_even_mono in Hm. rewrite Zle_Qle in Hm.
  apply Qle_shift_div_l; [exact Hp |].
  assert (E : inject_Z (Py.round_half_even (x * Py.pow10 n)) / Py.pow10 n * Py.pow10 n
              == inject_Z (Py.round_half_even (x * Py.pow10 n))) by (field; lra).
  rewrite E. exact Hm.
Qed.

(** A value with [n] decimals is its own rounding to [n] decimals. *)
Lemma round_decimal (k : Z) (n : nat) :
  Py.round (inject_Z k / Py.pow10 n) n == inject_Z k / Py.pow10 n.
Proof.
  unfold Py.round. pose proof (pow10_pos n) as Hp.
  assert (E : inject_Z k / Py.pow10 n * Py.pow10 n == inject_Z k) by (field; lra).
  rewrite (round_half_even_comp _ _ E).
  assert (Hk : Py.round_half_even (inject_Z k) = k).
  { pose proof (round_half_even_ge k (inject_Z k) (Qle_refl _)) as H1.
    pose proof (round_half_even_le k (inject_Z k) (Qle_refl _)) as H2.
    lia. }
  rewrite Hk. reflexivity.
Qed.

(** Rounding keeps a value below a bound that has [n] decimals. *)
Lemma round_le_decimal (x : Q) (k : Z) (n : nat) :
  x <= inject_Z k / Py.pow10 n -> Py.round x n <= inject_Z k / Py.pow10 n.
Proof.
  intros H. apply (round_mono _ _ n) in H. rewrite round_decimal in H. exact H.
Qed.

(** ** The scoring functions, continued *)

Lemma budget_fit_cases (b r : Q) :
  0 < r ->
  (r <= b /\ E.calculate_budget_fit b r = 100) \/
  (b < r /\ E.calculate_budget_fit b r = b / r * 100 /\ b / r * 100 < 100).
Proof.
  intros Hr. unfold E.calculate_budget_fit.
  destruct (Qle_bool r b) eqn:Hle.
  - left. apply Qle_bool_iff in Hle. split; [exact Hle | reflexivity].
  - right.
    assert (Hlt : b < r).
    { apply Qnot_le_lt. intros H. apply Qle_bool_iff in H. congruence. }
    assert (Hq : b / r * 100 < 100).
    { assert (b / r < 1) by (apply Qlt_shift_div_r; lra). lra. }
    split; [exact Hlt |]. split; [| exact Hq].
    unfold Py.min. destruct (Py.lt 100 (b / r * 100)) eqn:Hm; [| reflexivity].
    apply lt_iff in Hm. lra.
Qed.

Lemma div_times (b r : Q) : 0 < r -> b / r * r == b.
Proof. intros Hr. field. lra. Qed.

Lemma budget_fit_mono (b b' r : Q) :
  0 < r -> b <= b' -> E.calculate_budget_fit b r <= E.calculate_budget_fit b' r.
Proof.
  intros Hr Hb.
  destruct (budget_fit_cases b r Hr) as [[Hle ->] | (Hlt & -> & Hq)];
    destruct (budget_fit_cases b' r Hr) as [[Hle' ->] | (Hlt' & -> & Hq')];
    try lra.
  pose proof (div_times b r Hr). pose proof (div_times b' r Hr).
  assert (b / r <= b' / r) by nra. lra.
Qed.

(** X1.  For a positive required investment the budget fit is 100 exactly
    when the budget covers the investment and [budget / investment * 100],
    below 100, otherwise; it never decreases when the budget grows and, for
    a positive budget that does not cover the investment, it strictly
    decreases when the investment grows. *)
Theorem budget_fit_shape (b r : Q) :
  0 < r ->
  (E.calculate_budget_fit b r == 100 <-> r <= b) /\
  (b < r -> E.calculate_budget_fit b r == b / r * 100) /\
  E.calculate_budget_fit b r <= 100 /\
  (forall b', b <= b' -> E.calculate_budget_fit b r <= E.calculate_budget_fit b' r) /\
  (forall r', 0 < b -> b < r -> r < r' ->
              E.calculate_budget_fit b r' < E.calculate_budget_fit b r).
Proof.
  intros Hr.
  destruct (budget_fit_cases b r Hr) as [[Hle Hbf] | (Hlt & Hbf & Hq)];
    rewrite Hbf.
  - split; [split; intros; [exact Hle | reflexivity] |].
    split; [intros; lra |]. split; [lra |].
    split.
    + intros b' Hb. rewrite <- Hbf. apply budget_fit_mono; assumption.
    + intros r' _ Hbr _. lra.
  - split; [split; intros H; lra |].
    split; [intros; reflexivity |]. split; [lra |].
    split.
    + intros b' Hb. rewrite <- Hbf. apply budget_fit_mono; assumption.
    + intros r' Hb _ Hrr.
      assert (Hr' : 0 < r') by lra.
      destruct (budget_fit_cases b r' Hr') as [[Hle' _] | (_ & -> & _)]; [lra |].
      pose proof (div_times b r Hr) as E1. pose proof (div_times b r' Hr') as E2.
      assert (Hq0 : 0 < b / r) by (apply Qlt_shift_div_l; lra).
      assert (b / r' < b / r) by nra. lra.
Qed.

Lemma budget_fit_shape_witness :
  E.calculate_budget_fit 200 300 == 200 / 300 * 100 /\
  E.calculate_budget_fit 200 400 < E.calculate_budget_fit 200 300.
Proof.
  assert (H3 : 0 < 300) by lra.
  destruct (budget_fit_shape 200 300 H3) as (_ & Hpart & _ & _ & Hdec).
  split.
  - apply Hpart. lra.
  - apply Hdec; lra.
Defined.

Lemma contains_iff (xs : list string) (x : string) :
  Py.contains xs x = true <-> In x xs.
Proof.
  unfold Py.contains. rewrite existsb_exists. split.
  - intros [y [Hin Heq]]. apply String.eqb_eq in Heq. subst. exact Hin.
  - intros Hin. exists x. split; [exact Hin | apply String.eqb_refl].
Qed.



(** X3.  The total score never decreases when the demand grows, the
    competition shrinks or the budget grows, the line being otherwise the
    same. *)
Theorem total_score_monotone (row row' : Row) (budget budget' : Q)
  (interests : list string) :
  Category row' = Category row -> Investment row' = Investment row ->
  0 < Investment row ->
  Demand row <= Demand row' -> Competition row' <= Competition row ->
  budget <= budget' ->
  E.calculate_total_score row budget interests
  <= E.calculate_total_score row' budget' interests.
Proof.
  intros Hc Hi Hpos Hd Hco Hb.
  unfold E.calculate_total_score. apply round_mono.
  rewrite Hc, Hi, !market_gap_linear.
  pose proof (budget_fit_mono budget budget' (Investment row) Hpos Hb). lra.
Qed.

Lemma total_score_monotone_witness :
  E.calculate_total_score saturated_row 50 ["Food"]
  <= E.calculate_total_score
       {| City := "Pune"; Category := "Food"; Business := "Diner";
          Investment := 100; Demand := 100; Competition := 0 |} 100 ["Food"].
Proof.
  apply total_score_monotone; simpl; try reflexivity; lra.
Defined.

Lemma Qle_bool_false_iff (a b : Q) : Qle_bool a b = false <-> b < a.
Proof.
  split.
  - intros H. apply Qnot_le_lt. intros Hle. apply Qle_bool_iff in Hle. congruence.
  - intros H. destruct (Qle_bool a b) eqn:E; [| reflexivity].
    apply Qle_bool_iff in E. lra.
Qed.

Lemma Qeq_bool_false_iff (a b : Q) : Qeq_bool a b = false <-> ~ a == b.
Proof.
  split.
  - intros H Heq. apply Qeq_bool_iff in Heq. congruence.
  - intros H. destruct (Qeq_bool a b) eqn:E; [| reflexivity].
    apply Qeq_bool_iff in E. tauto.
Qed.

(** X4.  The explanation is the market tag, the budget tag and the interest
    tag, in this order, joined by " | ".  For a positive investment the
    market tag depends on demand - competition (at least 40, at least 0,
    negative), the budget tag on the share of the investment the budget
    covers (all, at least 80%, at least 50%, less), the interest tag on the
    category being among the interests. *)
Theorem explanation_tags (row : Row) (budget : Q) (interests : list string) :
  0 < Investment row ->
  exists market budget_tag interest : string,
    E.get_score_explanation row budget interests
    = (market ++ " | " ++ budget_tag ++ " | " ++ interest)%string /\
    (market = "🎯 High market opportunity (low competition, high demand)"
     <-> 40 <= Demand row - Competition row) /\
    (market = "📈 Good market potential"
     <-> 0 <= Demand row - Competition row < 40) /\
    (market = "⚠️ Competitive market" <-> Demand row - Competition row < 0) /\
    (budget_tag = "💰 Perfect budget fit" <-> Investment row <= budget) /\
    (budget_tag = "💵 Good budget alignment"
     <-> (8 # 10) * Investment row <= budget < Investment row) /\
    (budget_tag = "💲 Moderate budget requirement"
     <-> (5 # 10) * Investment row <= budget < (8 # 10) * Investment row) /\
    (budget_tag = "💸 High investment needed" <-> budget < (5 # 10) * Investment row) /\
    (interest = "❤️ Matches your interests" <-> In (Category row) interests) /\
    (interest = "🔍 Outside your preferred categories"
     <-> ~ In (Category row) interests).
Proof.
  intros Hpos. unfold E.get_score_explanation.
  eexists. eexists. eexists. split; [reflexivity |].
  pose proof (market_gap_linear (Demand row) (Competition row)) as Hmg.
  set (mg := E.calculate_market_gap (Demand row) (Competition row)) in *.
  pose proof (budget_fit_cases budget (Investment row) Hpos) as Hbf.
  pose proof (div_times budget (Investment row) Hpos) as Hdiv.
  set (bf := E.calculate_budget_fit budget (Investment row)) in *.
  set (q := budget / Investment row) in *.
  pose proof (interest_match_cases interests (Category row)) as Hi.
  set (im := E.calculate_interest_match interests (Category row)) in *.
  assert (Hq100 : Qeq_bool bf 100 = true <-> bf == 100) by apply Qeq_bool_iff.
  destruct (Qle_bool 70 mg) eqn:H70;
    [apply Qle_bool_iff in H70 | apply Qle_bool_false_iff in H70];
    (destruct (Qle_bool 50 mg) eqn:H50;
     [apply Qle_bool_iff in H50 | apply Qle_bool_false_iff in H50]);
    (destruct (Qeq_bool bf 100) eqn:Hb100;
     [apply Qeq_bool_iff in Hb100 | apply Qeq_bool_false_iff in Hb100]);
    (destruct (Qle_bool 80 bf) eqn:H80;
     [apply Qle_bool_iff in H80 | apply Qle_bool_false_iff in H80]);
    (destruct (Qle_bool 50 bf) eqn:Hb50;
     [apply Qle_bool_iff in Hb50 | apply Qle_bool_false_iff in Hb50]);
    (destruct Hbf as [[Hle Hbf] | (Hlt & Hbf & Hq)]; rewrite Hbf in * );
    (destruct Hi as [[Hin Him] | [Hin Him]]; rewrite Him;
     [change (Qeq_bool 100 100) with true | change (Qeq_bool 0 100) with false]);
    repeat match goal with |- _ /\ _ => split end;
    split; intros H;
    first [discriminate H | reflexivity | tauto | lra | nra
           | exfalso; apply Hb100; reflexivity].
Qed.

Lemma explanation_tags_witness :
  exists market budget_tag interest : string,
    E.get_score_explanation open_row 100 ["Tech"]
    = (market ++ " | " ++ budget_tag ++ " | " ++ interest)%string /\
    market = "🎯 High market opportunity (low competition, high demand)" /\
    budget_tag = "💰 Perfect budget fit" /\
    interest = "❤️ Matches your interests".
Proof.
  assert (Hpos : 0 < Investment open_row) by (simpl; lra).
  destruct (explanation_tags open_row 100 ["Tech"] Hpos)
    as (m & b & i & Heq & Hm & _ & _ & Hb & _ & _ & _ & Hi & _).
  exists m, b, i. split; [exact Heq |].
  split; [apply Hm; simpl; lra |].
  split; [apply Hb; simpl; lra | apply Hi; simpl; tauto].
Defined.

(** ** [get_recommendations], continued *)



Lemma sorted_app_below {A : Type} (R : A -> A -> Prop) (l1 l2 : list A) :
  StronglySorted R (l1 ++ l2) -> Forall (fun a => Forall (R a) l2) l1.
Proof.
  induction l1 as [| x l1 IH]; simpl; intros Hs; [constructor |].
  inversion Hs as [| ? ? Hl Hx]; subst.
  constructor; [| apply IH; exact Hl].
  apply Forall_app in Hx. tauto.
Qed.








(** ** Strings in order *)

Lemma str_le_cases (a b : string) :
  str_le a b <-> a = b \/ OrderedTypeEx.String_as_OT.lt a b.
Proof.
  unfold str_le, String.leb.
  destruct (String.compare a b) eqn:Hc.
  - apply String.compare_eq_iff in Hc. split; [left; exact Hc | reflexivity].
  - apply OrderedTypeEx.String_as_OT.cmp_lt in Hc. split; [right; exact Hc | reflexivity].
  - split; [discriminate |].
    intros [-> | Hlt].
    + pose proof (proj2 (OrderedTypeEx.String_as_OT.cmp_eq b b) eq_refl) as He.
      unfold OrderedTypeEx.String_as_OT.cmp in He. congruence.
    + apply OrderedTypeEx.String_as_OT.cmp_lt in Hlt. unfold OrderedTypeEx.String_as_OT.cmp in Hlt. congruence.
Qed.

Lemma str_lt_cases (a b : string) : str_lt a b <-> OrderedTypeEx.String_as_OT.lt a b.
Proof.
  unfold str_lt, String.ltb. rewrite <- OrderedTypeEx.String_as_OT.cmp_lt.
  unfold OrderedTypeEx.String_as_OT.cmp. destruct (String.compare a b); split; congruence.
Qed.

Lemma str_le_trans (a b c : string) : str_le a b -> str_le b c -> str_le a c.
Proof.
  rewrite !str_le_cases. intros [-> | H1] [-> | H2]; auto.
  right. eapply OrderedTypeEx.String_as_OT.lt_trans; eassumption.
Qed.

Lemma str_le_lt (a b : string) : str_le a b -> a <> b -> str_lt a b.
Proof.
  rewrite str_le_cases, str_lt_cases. intros [-> | H] Hne; [congruence | exact H].
Qed.

Lemma str_not_le (a b : string) : String.leb a b = false -> str_le b a.
Proof.
  intros H. destruct (String.leb_total a b) as [H1 | H1]; [congruence | exact H1].
Qed.

(** ** Distinct values and sorting *)

Lemma Series_unique_in (l : list string) (x : string) :
  In x (Series_unique l) <-> In x l.
Proof.
  induction l as [| y l IH]; simpl; [tauto |].
  rewrite filter_In, IH, negb_true_iff, String.eqb_neq.
  destruct (string_dec y x) as [-> | Hne]; [tauto |].
  split; [tauto |]. intros [H | H]; [tauto | right; split; [exact H | exact Hne]].
Qed.

Lemma Series_unique_nodup (l : list string) : NoDup (Series_unique l).
Proof.
  induction l as [| y l IH]; simpl; constructor.
  - rewrite filter_In, negb_true_iff, String.eqb_neq. tauto.
  - apply NoDup_filter. exact IH.
Qed.

Lemma Series_unique_length (l : list string) :
  (List.length (Series_unique l) <= List.length l)%nat.
Proof.
  induction l as [| y l IH]; simpl; [lia |].
  pose proof (filter_length_le (fun y0 => negb (String.eqb y y0)) (Series_unique l)).
  lia.
Qed.

Lemma insert_sorted_perm (x : string) (l : list string) :
  Permutation (insert_sorted x l) (x :: l).
Proof.
  induction l as [| y l IH]; simpl; [apply Permutation_refl |].
  destruct (String.leb x y); [apply Permutation_refl |].
  eapply Permutation_trans; [apply perm_skip, IH | apply perm_swap].
Qed.

Lemma sorted_perm (l : list string) : Permutation (sorted l) l.
Proof.
  induction l as [| x l IH]; simpl; [apply Permutation_refl |].
  eapply Permutation_trans; [apply insert_sorted_perm | apply perm_skip, IH].
Qed.

Lemma insert_sorted_sorted (x : string) (l : list string) :
  StronglySorted str_le l -> StronglySorted str_le (insert_sorted x l).
Proof.
  induction l as [| y l IH]; intros Hs; simpl.
  - constructor; constructor.
  - inversion Hs as [| ? ? Hl Hy]; subst.
    destruct (String.leb x y) eqn:Hle.
    + constructor; [exact Hs |].
      constructor; [exact Hle |].
      eapply Forall_impl; [| exact Hy].
      intros z Hz. eapply str_le_trans; [exact Hle | exact Hz].
    + constructor; [apply IH; exact Hl |].
      apply Forall_forall. intros z Hz.
      apply (Permutation_in _ (insert_sorted_perm x l)) in Hz.
      destruct Hz as [<- | Hz].
      * apply str_not_le. exact Hle.
      * rewrite Forall_forall in Hy. apply Hy. exact Hz.
Qed.

Lemma sorted_sorted (l : list string) : StronglySorted str_le (sorted l).
Proof.
  induction l as [| x l IH]; simpl; [constructor | apply insert_sorted_sorted, IH].
Qed.

(** Sorted and without repetition is strictly increasing. *)
Lemma sorted_nodup_strict (l : list string) :
  StronglySorted str_le l -> NoDup l -> StronglySorted str_lt l.
Proof.
  induction 1 as [| x l Hl IH Hx]; intros Hnd; constructor.
  - apply IH. inversion Hnd; assumption.
  - inversion Hnd as [| ? ? Hnin Hnd']; subst.
    apply Forall_forall. intros y Hy.
    rewrite Forall_forall in Hx.
    apply str_le_lt; [apply Hx; exact Hy |].
    intros ->. contradiction.
Qed.

Lemma sorted_unique_spec (l : list string) :
  StronglySorted str_lt (sorted (Series_unique l)) /\
  forall x, In x (sorted (Series_unique l)) <-> In x l.
Proof.
  split.
  - apply sorted_nodup_strict; [apply sorted_sorted |].
    eapply Permutation_NoDup;
      [apply Permutation_sym, sorted_perm | apply Series_unique_nodup].
  - intros x. rewrite <- (Series_unique_in l x). split; intros H.
    + eapply Permutation_in; [apply sorted_perm | exact H].
    + eapply Permutation_in; [apply Permutation_sym, sorted_perm | exact H].
Qed.

(** X9.  The available cities, and the available categories, are listed in
    strictly increasing order, so without repetition, and are exactly the
    values that occur in the dataset. *)
Theorem available_values (self : E.t) (h : E.Heap) :
  let data := map E.base (E.deref h (E.df self)) in
  StronglySorted str_lt (get_available_cities self h) /\
  (forall c, In c (get_available_cities self h)
             <-> exists row, In row data /\ City row = c) /\
  StronglySorted str_lt (get_available_categories self h) /\
  (forall c, In c (get_available_categories self h)
             <-> exists row, In row data /\ Category row = c).
Proof.
  intros data. unfold get_available_cities, get_available_categories.
  pose proof (sorted_unique_spec
                (map (fun r => City (E.base r)) (E.deref h (E.df self)))) as [Hs Hin].
  pose proof (sorted_unique_spec
                (map (fun r => Category (E.base r)) (E.deref h (E.df self))))
    as [Hs' Hin'].
  split; [exact Hs |]. split; [| split; [exact Hs' |]].
  - intros c. rewrite Hin. unfold data. rewrite in_map_iff. split.
    + intros [r [Hc Hr]]. exists (E.base r). split; [apply in_map; exact Hr | exact Hc].
    + intros [row [Hrow Hc]]. apply in_map_iff in Hrow as [r [<- Hr]].
      exists r. split; [exact Hc | exact Hr].
  - intros c. rewrite Hin'. unfold data. rewrite in_map_iff. split.
    + intros [r [Hc Hr]]. exists (E.base r). split; [apply in_map; exact Hr | exact Hc].
    + intros [row [Hrow Hc]]. apply in_map_iff in Hrow as [r [<- Hr]].
      exists r. split; [exact Hc | exact Hr].
Qed.

(** ** Minimum, maximum and integer part *)

Lemma fold_min_le (l : list Q) (a : Q) :
  fold_left Qmin l a <= a /\ forall x, In x l -> fold_left Qmin l a <= x.
Proof.
  revert a. induction l as [| y l IH]; intros a; simpl.
  - split; [lra | tauto].
  - destruct (IH (Qmin a y)) as [H1 H2].
    pose proof (Q.le_min_l a y). pose proof (Q.le_min_r a y).
    split; [lra |]. intros x [<- | Hx]; [lra | apply H2; exact Hx].
Qed.

Lemma fold_max_ge (l : list Q) (a : Q) :
  a <= fold_left Qmax l a /\ forall x, In x l -> x <= fold_left Qmax l a.
Proof.
  revert a. induction l as [| y l IH]; intros a; simpl.
  - split; [lra | tauto].
  - destruct (IH (Qmax a y)) as [H1 H2].
    pose proof (Q.le_max_l a y). pose proof (Q.le_max_r a y).
    split; [lra |]. intros x [<- | Hx]; [lra | apply H2; exact Hx].
Qed.

Lemma int_near (x : Q) : inject_Z (int x) - 1 < x < inject_Z (int x) + 1.
Proof.
  unfold int. destruct (Qle_bool 0 x).
  - pose proof (Qfloor_le x) as Hlo. pose proof (Qlt_floor x) as Hhi.
    rewrite inject_Z_plus in Hhi. change (inject_Z 1) with 1 in Hhi. lra.
  - pose proof (Qle_ceiling x) as Hhi. pose proof (Qceiling_lt x) as Hlo.
    unfold Z.sub in Hlo. rewrite inject_Z_plus in Hlo.
    change (inject_Z (Z.opp 1)) with (Qopp 1) in Hlo. lra.
Qed.

Lemma int_inject (k : Z) : int (inject_Z k) = k.
Proof.
  unfold int. destruct (Qle_bool 0 (inject_Z k)); [apply Qfloor_Z | apply Qceiling_Z].
Qed.

Lemma int_mono (x y : Q) : x <= y -> (int x <= int y)%Z.
Proof.
  intros H. unfold int.
  destruct (Qle_bool 0 x) eqn:Hx; destruct (Qle_bool 0 y) eqn:Hy.
  - apply Qfloor_resp_le. exact H.
  - apply Qle_bool_iff in Hx. apply Qle_bool_false_iff in Hy. lra.
  - apply Qle_bool_false_iff in Hx. apply Qle_bool_iff in Hy.
    assert (H1 : (Qceiling x <= Qceiling 0)%Z) by (apply Qceiling_resp_le; lra).
    assert (H2 : (Qfloor 0 <= Qfloor y)%Z) by (apply Qfloor_resp_le; exact Hy).
    change (Qceiling 0) with 0%Z in H1. change (Qfloor 0) with 0%Z in H2. lia.
  - apply Qceiling_resp_le. exact H.
Qed.

(** X10.  On an empty dataset [get_investment_range] raises; otherwise it
    returns integers [lo <= hi] such that every investment lies strictly
    between [lo - 1] and [hi + 1], and between [lo] and [hi] when it is an
    integer. *)
Theorem investment_range_bounds (self : E.t) (h : E.Heap) :
  let investments :=
    map (fun r => Investment (E.base r)) (E.deref h (E.df self)) in
  (investments = [] ->
   get_investment_range self h
   = Py.Raise (Py.ValueError "cannot convert float NaN to integer")) /\
  (investments <> [] ->
   exists lo hi : Z,
     get_investment_range self h = Py.Ok (lo, hi) /\
     (lo <= hi)%Z /\
     forall x, In x investments ->
               inject_Z lo - 1 < x < inject_Z hi + 1 /\
               forall k : Z, x == inject_Z k -> (lo <= k <= hi)%Z).
Proof.
  intros investments. unfold get_investment_range. fold investments.
  split; [intros ->; reflexivity |].
  intros Hne. destruct investments as [| a l]; [congruence |].
  cbn [Series_min Series_max].
  destruct (fold_min_le l a) as [Hmin_a Hmin].
  destruct (fold_max_ge l a) as [Hmax_a Hmax].
  set (lo := fold_left Qmin l a) in *. set (hi := fold_left Qmax l a) in *.
  exists (int lo), (int hi). split; [reflexivity |].
  split; [apply int_mono; lra |].
  intros x Hx.
  assert (Hlo : lo <= x) by (destruct Hx as [<- | Hx]; [exact Hmin_a | apply Hmin, Hx]).
  assert (Hhi : x <= hi) by (destruct Hx as [<- | Hx]; [exact Hmax_a | apply Hmax, Hx]).
  pose proof (int_near lo). pose proof (int_near hi).
  split; [lra |].
  intros k Hk. rewrite <- (int_inject k).
  split; apply int_mono; lra.
Qed.

Lemma investment_range_bounds_witness :
  (exists lo hi : Z,
      get_investment_range sample_engine sample_heap = Py.Ok (lo, hi) /\
      (lo <= hi)%Z) /\
  get_investment_range sample_engine []
  = Py.Raise (Py.ValueError "cannot convert float NaN to integer").
Proof.
  split.
  - destruct (investment_range_bounds sample_engine sample_heap) as [_ H].
    destruct H as (lo & hi & Heq & Hle & _); [simpl; discriminate |].
    exists lo, hi. split; [exact Heq | exact Hle].
  - apply (investment_range_bounds sample_engine []). reflexivity.
Defined.

(** ** [value_counts] *)

Lemma occurrences_in (x : string) (l : list string) :
  In x l <-> (0 < occurrences x l)%nat.
Proof.
  unfold occurrences. induction l as [| y l IH]; simpl; [split; [tauto | lia] |].
  destruct (String.eqb x y) eqn:He; simpl.
  - apply String.eqb_eq in He. subst. split; [lia | tauto].
  - apply String.eqb_neq in He. rewrite <- IH. split; [| tauto].
    intros [H | H]; [congruence | exact H].
Qed.

(** The first entry of [value_counts] is a value of the column that no
    other value outnumbers. *)
Lemma value_counts_top (l : list string) :
  l <> [] ->
  exists (k : Q) (top : string) (others : list (Q * string)),
    value_counts l = (k, top) :: others /\
    In top l /\
    forall c, (occurrences c l <= occurrences top l)%nat.
Proof.
  intros Hne. unfold value_counts.
  set (keyed := map (fun x => (inject_Z (Z.of_nat (occurrences x l)), x))
                    (Series_unique l)).
  pose proof (sort_desc_perm keyed) as Hperm.
  pose proof (sort_desc_sorted keyed) as Hsorted.
  assert (Hkey : forall e, In e (E.sort_desc keyed) ->
                           In (snd e) l /\
                           fst e = inject_Z (Z.of_nat (occurrences (snd e) l))).
  { intros e He. apply (Permutation_in _ Hperm) in He.
    unfold keyed in He. apply in_map_iff in He as [x [<- Hx]].
    apply (proj1 (Series_unique_in l x)) in Hx. split; [exact Hx | reflexivity]. }
  destruct (E.sort_desc keyed) as [| [k top] others] eqn:Hs.
  - apply Permutation_nil in Hperm.
    unfold keyed in Hperm. apply map_eq_nil in Hperm.
    destruct l as [| y l']; [congruence | discriminate Hperm].
  - exists k, top, others. split; [reflexivity |].
    destruct (Hkey (k, top) (or_introl eq_refl)) as [Htop Hk]. simpl in Htop, Hk.
    split; [exact Htop |].
    intros c. destruct (occurrences c l) as [| n] eqn:Hc; [lia |].
    assert (Hin : In c l) by (apply (proj2 (occurrences_in c l)); lia).
    assert (Hc_in : In (inject_Z (Z.of_nat (occurrences c l)), c) ((k, top) :: others)).
    { apply (Permutation_in _ (Permutation_sym Hperm)).
      unfold keyed. apply in_map_iff. exists c.
      split; [reflexivity | apply (proj2 (Series_unique_in l c)); exact Hin]. }
    destruct Hc_in as [Heq | Hin'].
    + injection Heq as _ ->. lia.
    + apply StronglySorted_inv in Hsorted as [_ Hall].
      rewrite Forall_forall in Hall. specialize (Hall _ Hin').
      unfold key_ge in Hall. simpl in Hall. rewrite Hk in Hall.
      rewrite <- Zle_Qle in Hall. lia.
Qed.

(** X11.  [get_city_summary] never raises.  A city without lines gives the
    empty dictionary; otherwise the summary counts the lines of the city,
    counts between 1 and that many categories, brackets every investment
    of the city between its minimum and maximum, and names as top category
    a category of the city that no other category outnumbers. *)
Theorem city_summary_properties (self : E.t) (city : string) (h : E.Heap) :
  let rows := map E.base (matching city (E.deref h (E.df self))) in
  (rows = [] -> get_city_summary self city h = Py.Ok None) /\
  (rows <> [] ->
   exists s : CitySummary.t,
     get_city_summary self city h = Py.Ok (Some s) /\
     CitySummary.total_businesses s = Z.of_nat (List.length rows) /\
     (1 <= CitySummary.categories s <= CitySummary.total_businesses s)%Z /\
     (exists lo hi : Q,
         CitySummary.min_investment s = Some lo /\
         CitySummary.max_investment s = Some hi /\
         forall r, In r rows -> lo <= Investment r <= hi) /\
     In (CitySummary.top_category s) (map Category rows) /\
     forall c, (occurrences c (map Category rows)
                <= occurrences (CitySummary.top_category s) (map Category rows))%nat).
Proof.
  intros rows. unfold get_city_summary. fold rows.
  split; [intros ->; reflexivity |].
  intros Hne.
  assert (Hcats : map Category rows <> [])
    by (destruct rows; [congruence | discriminate]).
  destruct (value_counts_top _ Hcats) as (k & top & others & Hvc & Htop & Hmax).
  destruct rows as [| r0 rest] eqn:Hrows; [congruence |].
  rewrite <- Hrows in *. rewrite Hvc. cbn [P.item0 Py.bind snd].
  eexists. split; [reflexivity |].
  cbn [CitySummary.total_businesses CitySummary.categories
       CitySummary.min_investment CitySummary.max_investment
       CitySummary.top_category].
  split; [reflexivity |].
  split.
  { pose proof (Series_unique_length (map Category rows)) as Hlen.
    rewrite length_map in Hlen.
    assert (Hpos : (0 < List.length (Series_unique (map Category rows)))%nat).
    { destruct (Series_unique (map Category rows)) eqn:Hu; [| simpl; lia].
      exfalso. assert (Hin : In top (Series_unique (map Category rows)))
        by (apply (proj2 (Series_unique_in _ _)); exact Htop).
      rewrite Hu in Hin. exact Hin. }
    lia. }
  split; [| split; [exact Htop | exact Hmax]].
  rewrite Hrows. cbn [map Series_min Series_max].
  destruct (fold_min_le (map Investment rest) (Investment r0)) as [Hmin0 Hmin].
  destruct (fold_max_ge (map Investment rest) (Investment r0)) as [Hmax0 Hmax'].
  eexists. eexists. split; [reflexivity |]. split; [reflexivity |].
  intros r [<- | Hr]; [lra |].
  split; [apply Hmin | apply Hmax']; apply in_map; exact Hr.
Qed.

Lemma city_summary_properties_witness :
  get_city_summary sample_engine "Atlantis" sample_heap = Py.Ok None /\
  exists s : CitySummary.t,
    get_city_summary sample_engine "Mumbai" sample_heap = Py.Ok (Some s) /\
    CitySummary.total_businesses s = 2%Z.
Proof.
  split.
  - apply (city_summary_properties sample_engine "Atlantis" sample_heap).
    reflexivity.
  - destruct (city_summary_properties sample_engine "Mumbai" sample_heap) as [_ H].
    destruct H as (s & Heq & Htotal & _); [simpl; discriminate |].
    exists s. split; [exact Heq | exact Htotal].
Defined.

(** ** [get_category_analysis] *)






(** ** Label encoders *)

Lemma compare_lt_iff (a b : string) : String.compare a b = Lt <-> str_lt a b.
Proof.
  unfold str_lt, String.ltb. destruct (String.compare a b); split; congruence.
Qed.

Lemma compare_gt_lt (a b : string) : String.compare a b = Gt -> str_lt b a.
Proof.
  intros H. apply compare_lt_iff.
  pose proof (OrderedTypeEx.String_as_OT.cmp_antisym b a) as Ha.
  unfold OrderedTypeEx.String_as_OT.cmp in Ha. rewrite H in Ha. exact Ha.
Qed.

Lemma str_lt_trans (a b c : string) : str_lt a b -> str_lt b c -> str_lt a c.
Proof.
  rewrite !str_lt_cases. apply OrderedTypeEx.String_as_OT.lt_trans.
Qed.

Lemma str_lt_irrefl (a : string) : ~ str_lt a a.
Proof.
  rewrite str_lt_cases. intros H.
  apply OrderedTypeEx.String_as_OT.lt_not_eq in H. apply H. reflexivity.
Qed.

Lemma insert_unique_in (x z : string) (l : list string) :
  In z (P.insert_unique x l) <-> z = x \/ In z l.
Proof.
  induction l as [| y l IH]; simpl; [intuition congruence |].
  destruct (String.compare x y) eqn:Hc; simpl.
  - apply String.compare_eq_iff in Hc. subst. intuition congruence.
  - intuition congruence.
  - rewrite IH. intuition congruence.
Qed.

Lemma insert_unique_sorted (x : string) (l : list string) :
  StronglySorted str_lt l -> StronglySorted str_lt (P.insert_unique x l).
Proof.
  induction l as [| y l IH]; intros Hs; simpl.
  - constructor; constructor.
  - apply StronglySorted_inv in Hs as Hinv. destruct Hinv as [Hl Hy].
    destruct (String.compare x y) eqn:Hc.
    + exact Hs.
    + apply compare_lt_iff in Hc.
      constructor; [exact Hs |]. constructor; [exact Hc |].
      eapply Forall_impl; [| exact Hy].
      intros z Hz. eapply str_lt_trans; eassumption.
    + apply compare_gt_lt in Hc.
      constructor; [apply IH; exact Hl |].
      apply Forall_forall. intros z Hz. apply insert_unique_in in Hz.
      destruct Hz as [-> | Hz]; [exact Hc |].
      rewrite Forall_forall in Hy. apply Hy. exact Hz.
Qed.

Lemma unique_spec (values : list string) :
  StronglySorted str_lt (P.unique values) /\
  forall x, In x (P.unique values) <-> In x values.
Proof.
  unfold P.unique. induction values as [| v values [IHs IHin]]; simpl.
  - split; [constructor | tauto].
  - split; [apply insert_unique_sorted; exact IHs |].
    intros x. rewrite insert_unique_in, IHin. intuition congruence.
Qed.

Lemma find_index_some (x : string) (classes : list string) (i : nat) :
  P.find_index x classes = Some i -> nth_error classes i = Some x.
Proof.
  revert i. induction classes as [| y classes IH]; intros i; simpl; [discriminate |].
  destruct (String.eqb x y) eqn:He.
  - apply String.eqb_eq in He. subst. intros [= <-]. reflexivity.
  - destruct (P.find_index x classes) as [j |]; simpl; [| discriminate].
    intros [= <-]. simpl. apply IH. reflexivity.
Qed.

Lemma find_index_in (x : string) (classes : list string) :
  In x classes -> exists i, P.find_index x classes = Some i.
Proof.
  intros H. apply find_index_contains. apply contains_iff. exact H.
Qed.

Lemma nth_error_bound {A : Type} (l : list A) (i : nat) (x : A) :
  nth_error l i = Some x -> (i < List.length l)%nat.
Proof.
  intros H. apply nth_error_Some. congruence.
Qed.

Lemma fit_codes (classes vs : list string) :
  (forall v, In v vs -> In v classes) ->
  let codes := map (fun y => match P.find_index y classes with
                             | Some i => Z.of_nat i
                             | None => 0%Z
                             end) vs in
  Forall2 (fun v code =>
             (0 <= code < Z.of_nat (List.length classes))%Z /\
             nth_error classes (Z.to_nat code) = Some v) vs codes /\
  P.transform classes vs = Py.Ok codes.
Proof.
  induction vs as [| v vs IH]; intros Hin; simpl.
  - split; [constructor | reflexivity].
  - destruct (find_index_in v classes (Hin v (or_introl eq_refl))) as [i Hi].
    destruct IH as [IH1 IH2]; [intros w Hw; apply Hin; right; exact Hw |].
    rewrite Hi. pose proof (find_index_some _ _ _ Hi) as Hnth.
    pose proof (nth_error_bound _ _ _ Hnth) as Hb.
    split.
    + constructor; [| exact IH1].
      rewrite Nat2Z.id. split; [lia | exact Hnth].
    + rewrite IH2. reflexivity.
Qed.

(** X13.  Fitting a label encoder on a column gives the distinct values of
    the column in strictly increasing order, and codes that decode: the
    code of each value is a position in the classes that holds this value.
    Transforming the same column with the fitted encoder returns the same
    codes. *)
Theorem label_encoder_round_trip (values : list string) :
  let classes := fst (P.fit_transform values) in
  let codes := snd (P.fit_transform values) in
  StronglySorted str_lt classes /\
  (forall x, In x classes <-> In x values) /\
  Forall2 (fun v code =>
             (0 <= code < Z.of_nat (List.length classes))%Z /\
             nth_error classes (Z.to_nat code) = Some v) values codes /\
  P.transform classes values = Py.Ok codes.
Proof.
  cbv zeta. unfold P.fit_transform. cbn [fst snd].
  destruct (unique_spec values) as [Hs Hin].
  split; [exact Hs |]. split; [exact Hin |].
  apply fit_codes. intros v Hv. apply Hin. exact Hv.
Qed.

(** X14.  With a fitted encoder for the column, encoding never raises and
    leaves the encoders as they are; a value the encoder knows gets its
    position in the classes, a value it does not know gets -1, which is no
    position. *)
Theorem encode_frozen (col : string) (values classes : list string)
  (encs : P.Encoders) :
  P.get col encs = Some classes ->
  exists codes : list Z,
    P.encode col values encs = (Py.Ok codes, encs) /\
    Forall2 (fun v code =>
               (In v classes ->
                (0 <= code)%Z /\ nth_error classes (Z.to_nat code) = Some v) /\
               (~ In v classes -> code = (-1)%Z)) values codes.
Proof.
  intros Hget. unfold P.encode. rewrite Hget.
  set (f := fun x : string =>
              if Py.contains classes x
              then Py.bind (P.transform classes [x]) P.item0
              else Py.Ok (-1)%Z).
  assert (Hf : forall v,
             exists code, f v = Py.Ok code /\
               (In v classes ->
                (0 <= code)%Z /\ nth_error classes (Z.to_nat code) = Some v) /\
               (~ In v classes -> code = (-1)%Z)).
  { intros v. unfold f. destruct (Py.contains classes v) eqn:Hc.
    - apply contains_iff in Hc.
      destruct (find_index_in v classes Hc) as [i Hi].
      cbn [P.transform]. rewrite Hi. cbn [Py.bind P.item0].
      exists (Z.of_nat i). split; [reflexivity |].
      split; [| tauto]. intros _. rewrite Nat2Z.id.
      split; [lia | apply find_index_some; exact Hi].
    - exists (-1)%Z. split; [reflexivity |].
      split; [| reflexivity]. intros Hin. apply contains_iff in Hin. congruence. }
  clearbody f.
  induction values as [| v values (codes & Heq & Hall)].
  - exists []. split; [reflexivity | constructor].
  - destruct (Hf v) as (code & Hv & Hcode).
    injection Heq as Heq.
    exists (code :: codes). cbn [P.apply]. rewrite Hv, Heq.
    split; [reflexivity |]. constructor; [exact Hcode | exact Hall].
Qed.

Lemma encode_frozen_witness :
  exists codes : list Z,
    P.encode "City" ["Mumbai"; "Atlantis"; "Delhi"] [("City", ["Delhi"; "Mumbai"])]
    = (Py.Ok codes, [("City", ["Delhi"; "Mumbai"])]).
Proof.
  destruct (encode_frozen "City" ["Mumbai"; "Atlantis"; "Delhi"] ["Delhi"; "Mumbai"]
              [("City", ["Delhi"; "Mumbai"])] eq_refl) as (codes & Heq & _).
  exists codes. exact Heq.
Defined.

(** ** [prepare_features], continued *)

Lemma get_app (col k : string) (v : list string) (encs : P.Encoders) :
  P.get col (encs ++ [(k, v)])
  = match P.get col encs with
    | Some c => Some c
    | None => if String.eqb col k then Some v else None
    end.
Proof.
  induction encs as [| [k' v'] encs IH]; simpl; [reflexivity |].
  destruct (String.eqb col k'); [reflexivity | exact IH].
Qed.

(** What encoding a column does to the encoders: nothing when the column
    has one, a new entry at the end otherwise. *)
Lemma encode_encoders (col : string) (values : list string) (encs : P.Encoders) :
  exists codes : list Z,
    List.length codes = List.length values /\
    P.encode col values encs
    = (Py.Ok codes,
       match P.get col encs with
       | Some _ => encs
       | None => encs ++ [(col, P.unique values)]
       end).
Proof.
  destruct (encode_ok col values encs) as (codes & encs' & Heq & Hlen).
  exists codes. split; [exact Hlen |]. rewrite Heq. f_equal.
  unfold P.encode in Heq. destruct (P.get col encs).
  - injection Heq as _ <-. reflexivity.
  - unfold P.fit_transform in Heq. injection Heq as _ <-. reflexivity.
Qed.

Lemma encode_get (col col' : string) (values : list string) (encs : P.Encoders) :
  (forall c, P.get col' encs = Some c ->
             P.get col' (snd (P.encode col values encs)) = Some c) /\
  P.get col (snd (P.encode col values encs)) <> None.
Proof.
  destruct (encode_encoders col values encs) as (codes & _ & ->). cbn [snd].
  destruct (P.get col encs) as [c0 |] eqn:Hg.
  - split; [tauto | congruence].
  - split.
    + intros c Hc. rewrite get_app, Hc. reflexivity.
    + rewrite get_app, Hg, String.eqb_refl. discriminate.
Qed.

Lemma zip_codes_length (df : list Row) (c g b : list Z) :
  List.length c = List.length df -> List.length g = List.length df ->
  List.length b = List.length df ->
  List.length (P.zip_codes df c g b) = List.length df.
Proof.
  revert c g b. induction df as [| r df IH]; intros c g b Hc Hg Hb.
  - destruct c, g, b; reflexivity.
  - destruct c as [| c0 c], g as [| g0 g], b as [| b0 b]; try discriminate.
    simpl. f_equal. apply IH; simpl in *; lia.
Qed.

Lemma prepare_features_facts (np_log1p np_sqrt : Q -> Q) (df : list Row)
  (encs : P.Encoders) :
  exists (fs : list (list Q)) (encs' : P.Encoders),
    P.prepare_features np_log1p np_sqrt df encs = (Py.Ok fs, encs') /\
    List.length fs = List.length df /\
    Forall (fun f => List.length f = 14%nat) fs /\
    (forall col classes, P.get col encs = Some classes ->
                         P.get col encs' = Some classes) /\
    (forall col, In col ["City"; "Category"; "Business"] -> P.get col encs' <> None) /\
    forall df', snd (P.prepare_features np_log1p np_sqrt df' encs') = encs'.
Proof.
  unfold P.prepare_features.
  destruct (encode_encoders "City" (map City df) encs) as (c & Hc & Ec).
  pose proof (encode_get "City") as G1.
  rewrite Ec in *. set (e1 := match P.get "City" encs with
                              | Some _ => encs | None => _ end) in *.
  destruct (encode_encoders "Category" (map Category df) e1) as (g & Hg & Eg).
  pose proof (encode_get "Category") as G2.
  rewrite Eg in *. set (e2 := match P.get "Category" e1 with
                              | Some _ => e1 | None => _ end) in *.
  destruct (encode_encoders "Business" (map Business df) e2) as (b & Hb & Eb).
  pose proof (encode_get "Business") as G3.
  rewrite Eb in *. set (e3 := match P.get "Business" e2 with
                              | Some _ => e2 | None => _ end) in *.
  rewrite length_map in Hc, Hg, Hb.
  assert (K1 : forall col cl, P.get col encs = Some cl -> P.get col e1 = Some cl).
  { intros col cl H. pose proof (proj1 (G1 col (map City df) encs) cl H) as K.
    rewrite Ec in K. exact K. }
  assert (K2 : forall col cl, P.get col e1 = Some cl -> P.get col e2 = Some cl).
  { intros col cl H. pose proof (proj1 (G2 col (map Category df) e1) cl H) as K.
    rewrite Eg in K. exact K. }
  assert (K3 : forall col cl, P.get col e2 = Some cl -> P.get col e3 = Some cl).
  { intros col cl H. pose proof (proj1 (G3 col (map Business df) e2) cl H) as K.
    rewrite Eb in K. exact K. }
  assert (P1 : P.get "City" e1 <> None).
  { pose proof (proj2 (G1 "City" (map City df) encs)) as K. rewrite Ec in K. exact K. }
  assert (P2 : P.get "Category" e2 <> None).
  { pose proof (proj2 (G2 "Category" (map Category df) e1)) as K.
    rewrite Eg in K. exact K. }
  assert (P3 : P.get "Business" e3 <> None).
  { pose proof (proj2 (G3 "Business" (map Business df) e2)) as K.
    rewrite Eb in K. exact K. }
  assert (Q1 : exists cl, P.get "City" e3 = Some cl).
  { destruct (P.get "City" e1) as [cl |] eqn:H; [| congruence].
    exists cl. apply K3, K2. exact H. }
  assert (Q2 : exists cl, P.get "Category" e3 = Some cl).
  { destruct (P.get "Category" e2) as [cl |] eqn:H; [| congruence].
    exists cl. apply K3. exact H. }
  assert (Q3 : exists cl, P.get "Business" e3 = Some cl).
  { destruct (P.get "Business" e3) as [cl |] eqn:H; [| congruence].
    exists cl. reflexivity. }
  eexists. exists e3. split; [reflexivity |].
  split; [rewrite length_map; apply zip_codes_length; assumption |].
  split; [apply Forall_map, Forall_forall; intros r _; reflexivity |].
  split; [intros col cl H; apply K3, K2, K1; exact H |].
  split.
  - intros col [<- | [<- | [<- | []]]].
    + destruct Q1 as [cl ->]. discriminate.
    + destruct Q2 as [cl ->]. discriminate.
    + destruct Q3 as [cl ->]. discriminate.
  - intros df'. destruct Q1 as [c1 H1], Q2 as [c2 H2], Q3 as [c3 H3].
    destruct (encode_encoders "City" (map City df') e3) as (x1 & _ & ->).
    rewrite H1.
    destruct (encode_encoders "Category" (map Category df') e3) as (x2 & _ & ->).
    rewrite H2.
    destruct (encode_encoders "Business" (map Business df') e3) as (x3 & _ & ->).
    rewrite H3. reflexivity.
Qed.

(** X15.  [prepare_features] never raises.  It returns one vector of
    fourteen features per line, leaves every encoder it finds as it is,
    and leaves encoders for the three columns, so that a second call
    changes nothing more. *)
Theorem prepare_features_shape (np_log1p np_sqrt : Q -> Q) (df : list Row)
  (encs : P.Encoders) :
  exists (fs : list (list Q)) (encs' : P.Encoders),
    P.prepare_features np_log1p np_sqrt df encs = (Py.Ok fs, encs') /\
    List.length fs = List.length df /\
    Forall (fun f => List.length f = 14%nat) fs /\
    (forall col classes, P.get col encs = Some classes ->
                         P.get col encs' = Some classes) /\
    (forall col, In col ["City"; "Category"; "Business"] -> P.get col encs' <> None) /\
    forall df', snd (P.prepare_features np_log1p np_sqrt df' encs') = encs'.
Proof.
  destruct (prepare_features_facts np_log1p np_sqrt df encs)
    as (fs & encs' & Hrun & Hlen & Hwidth & Hkeep & Hall & Hagain).
  exists fs, encs'. split; [exact Hrun |].
  split; [exact Hlen |]. split; [exact Hwidth |].
  split; [exact Hkeep |]. split; [exact Hall | exact Hagain].
Qed.

(** X16.  The vector built for a single input, as at prediction time, has
    three integer codes, [log1p] of the investment and the investment in
    millions, then aggregates that are those of the input line alone: the
    investment as both mean investments, 0 as both standard deviations, 1
    as the city's business count and 0 as every mean demand and
    competition, whatever the encoders hold. *)
Theorem inference_vector (np_log1p np_sqrt : Q -> Q)
  (city category business : string) (investment : Q) (encs : P.Encoders) :
  exists (c g b : Z) (rest : list Q) (encs' : P.Encoders),
    P.prepare_features np_log1p np_sqrt
      (P.input_data city category business investment) encs
    = (Py.Ok [ inject_Z c :: inject_Z g :: inject_Z b
               :: np_log1p investment :: rest ], encs') /\
    Forall2 Qeq rest
      [investment / 1000000; investment; 0; 1; 0; 0; investment; 0; 0; 0].
Proof.
  unfold P.prepare_features, P.input_data. cbn [map City Category Business].
  destruct (encode_one "City" city encs) as (c & e1 & ->).
  destruct (encode_one "Category" category e1) as (g & e2 & ->).
  destruct (encode_one "Business" business e2) as (b & e3 & ->).
  exists c, g, b. eexists. exists e3.
  cbn [P.zip_codes map].
  unfold P.feature_columns, P.city_stats, P.category_stats.
  cbn [P.City_encoded P.Category_encoded P.Business_encoded P.row filter].
  rewrite !Z.eqb_refl.
  cbn [map P.row Investment Demand Competition P.std P.fillna app].
  split; [reflexivity |].
  repeat (constructor;
          [first [reflexivity | unfold Py.mean, Py.sum, Py.len; simpl; field] |]).
  constructor.
Qed.

Lemma with_encoders_same (self : P.t) :
  P.with_encoders self (P.label_encoders self) = self.
Proof. destruct self. reflexivity. Qed.

(** X17.  A call of [predict_single_business] on a predictor that has
    encoders for the three columns leaves the predictor exactly as it was,
    whether it answers or raises. *)
Theorem predict_read_only (np_log1p np_sqrt : Q -> Q) (self : P.t)
  (city category business : string) (investment normal : Q) :
  (forall col, In col ["City"; "Category"; "Business"] ->
               P.get col (P.label_encoders self) <> None) ->
  snd (P.predict_single_business np_log1p np_sqrt self
         city category business investment normal) = self.
Proof.
  intros Henc. unfold P.predict_single_business.
  destruct (P.demand_model self); [| reflexivity].
  destruct (P.competition_model self); [| reflexivity].
  assert (Hsame : snd (P.prepare_features np_log1p np_sqrt
                         (P.input_data city category business investment)
                         (P.label_encoders self)) = P.label_encoders self).
  { unfold P.prepare_features.
    destruct (encode_encoders "City"
                (map City (P.input_data city category business investment))
                (P.label_encoders self)) as (x1 & _ & ->).
    destruct (P.get "City" (P.label_encoders self)) eqn:H1;
      [| exfalso; apply (Henc "City"); [simpl; tauto | exact H1]].
    destruct (encode_encoders "Category"
                (map Category (P.input_data city category business investment))
                (P.label_encoders self)) as (x2 & _ & ->).
    destruct (P.get "Category" (P.label_encoders self)) eqn:H2;
      [| exfalso; apply (Henc "Category"); [simpl; tauto | exact H2]].
    destruct (encode_encoders "Business"
                (map Business (P.input_data city category business investment))
                (P.label_encoders self)) as (x3 & _ & ->).
    destruct (P.get "Business" (P.label_encoders self)) eqn:H3;
      [| exfalso; apply (Henc "Business"); [simpl; tauto | exact H3]].
    reflexivity. }
  destruct (P.prepare_features _ _ _ _) as [features encs].
  cbn [snd] in Hsame. subst encs. rewrite with_encoders_same.
  destruct (P.try_predict _ _ _ _ _); reflexivity.
Qed.

Lemma predict_read_only_witness :
  snd (P.predict_single_business sample_np sample_np sample_predictor
         "Atlantis" "Food" "Cafe" 250 0) = sample_predictor.
Proof.
  apply predict_read_only.
  intros col [<- | [<- | [<- | []]]]; discriminate.
Defined.

(** ** [train_models] *)

Lemma select_in {A : Type} (idx : list nat) (l : list A) (x : A) :
  In x (P.select idx l) -> In x l.
Proof.
  unfold P.select. intros H. apply in_flat_map in H as [i [_ Hi]].
  destruct (nth_error l i) as [a |] eqn:Hn; [| destruct Hi].
  destruct Hi as [<- | []]. eapply nth_error_In. exact Hn.
Qed.

Lemma scaler_fit_shape (np_sqrt : Q -> Q) (x : list Q) (X : list (list Q)) :
  let sc := P.scaler_fit np_sqrt (x :: X) in
  List.length (P.mean_ sc) = List.length x /\
  List.length (P.scale_ sc) = List.length x /\
  Forall (fun s => ~ s == 0) (P.scale_ sc).
Proof.
  cbv zeta. unfold P.scaler_fit. cbn [P.mean_ P.scale_].
  rewrite !length_map, length_seq.
  split; [reflexivity |]. split; [reflexivity |].
  apply Forall_map, Forall_forall. intros c _.
  destruct (Qeq_bool (np_sqrt (P.var c)) 0) eqn:He.
  - intros H. discriminate H.
  - apply Qeq_bool_false_iff. exact He.
Qed.

(** What [train_models] leaves, by outcome. *)
Lemma train_models_run (np_log1p np_sqrt : Q -> Q)
  (split_indices : nat -> list nat * list nat)
  (fit : list (list Q) -> list Q -> P.Model) (self : P.t) (csv : list Row) :
  let data := match P.df self with Some d => d | None => csv end in
  let run := P.train_models np_log1p np_sqrt split_indices fit self csv in
  exists fs : list (list Q),
    fst (P.prepare_features np_log1p np_sqrt data (P.label_encoders self)) = Py.Ok fs /\
    P.df (snd run) = Some data /\
    P.label_encoders (snd run)
    = snd (P.prepare_features np_log1p np_sqrt data (P.label_encoders self)) /\
    ((P.select (fst (split_indices (List.length data))) fs = [] /\
      fst run = Py.Raise (Py.ValueError "the resulting train set will be empty") /\
      P.demand_model (snd run) = P.demand_model self /\
      P.competition_model (snd run) = P.competition_model self /\
      P.scaler (snd run) = P.scaler self) \/
     (fst run = Py.Ok tt /\
      trained (snd run) /\
      (exists (X : list (list Q)) (yd yc : list Q),
          P.demand_model (snd run) = Some (fit X yd) /\
          P.competition_model (snd run) = Some (fit X yc)) /\
      exists sc : P.StandardScaler,
        P.scaler (snd run) = Some sc /\
        List.length (P.mean_ sc) = 14%nat /\
        List.length (P.scale_ sc) = 14%nat /\
        Forall (fun s => ~ s == 0) (P.scale_ sc))).
Proof.
  intros data run. unfold run, P.train_models. fold data.
  destruct (prepare_features_facts np_log1p np_sqrt data (P.label_encoders self))
    as (fs & encs' & Hrun & _ & Hwidth & _).
  rewrite Hrun. exists fs. split; [reflexivity |].
  destruct (split_indices (List.length data)) as [train test]. cbn [fst].
  destruct (P.select train fs) as [| x X] eqn:Hsel.
  - cbn [fst snd P.df P.label_encoders P.demand_model P.competition_model P.scaler].
    split; [reflexivity |]. split; [reflexivity |].
    left. repeat split; reflexivity.
  - cbn [fst snd P.df P.label_encoders P.demand_model P.competition_model P.scaler].
    split; [reflexivity |]. split; [reflexivity |].
    right. split; [reflexivity |].
    split; [eexists; eexists; split; reflexivity |].
    split; [eexists; eexists; eexists; split; reflexivity |].
    eexists. split; [reflexivity |].
    assert (Hx : List.length x = 14%nat).
    { rewrite Forall_forall in Hwidth. apply Hwidth.
      apply (select_in train). rewrite Hsel. left. reflexivity. }
    destruct (scaler_fit_shape np_sqrt x X) as (H1 & H2 & H3).
    rewrite Hx in H1, H2. split; [exact H1 | split; [exact H2 | exact H3]].
Qed.

(** X18.  [train_models] either raises because no line is left for
    training, and then leaves both models and the scaler as they were, or
    returns with both models present and a scaler fitted on fourteen
    columns whose scale factors are all non-zero.  In both cases the
    predictor keeps the dataset and encoders for the three columns. *)
Theorem train_models_outcome (np_log1p np_sqrt : Q -> Q)
  (split_indices : nat -> list nat * list nat)
  (fit : list (list Q) -> list Q -> P.Model) (self : P.t) (csv : list Row) :
  let run := P.train_models np_log1p np_sqrt split_indices fit self csv in
  P.df (snd run) = Some (match P.df self with Some d => d | None => csv end) /\
  (forall col, In col ["City"; "Category"; "Business"] ->
               P.get col (P.label_encoders (snd run)) <> None) /\
  ((fst run = Py.Raise (Py.ValueError "the resulting train set will be empty") /\
    P.demand_model (snd run) = P.demand_model self /\
    P.competition_model (snd run) = P.competition_model self /\
    P.scaler (snd run) = P.scaler self) \/
   (fst run = Py.Ok tt /\
    trained (snd run) /\
    exists sc : P.StandardScaler,
      P.scaler (snd run) = Some sc /\
      List.length (P.mean_ sc) = 14%nat /\
      List.length (P.scale_ sc) = 14%nat /\
      Forall (fun s => ~ s == 0) (P.scale_ sc))).
Proof.
  intros run.
  destruct (train_models_run np_log1p np_sqrt split_indices fit self csv)
    as (fs & _ & Hdf & Hencs & Hcases).
  fold run in Hdf, Hencs, Hcases.
  split; [exact Hdf |]. split.
  - rewrite Hencs.
    destruct (prepare_features_facts np_log1p np_sqrt
                (match P.df self with Some d => d | None => csv end)
                (P.label_encoders self))
      as (fs' & encs' & Hrun & _ & _ & _ & Hall & _).
    rewrite Hrun. exact Hall.
  - destruct Hcases as [(_ & H) | (Hok & Htr & _ & Hsc)];
      [left; exact H | right].
    split; [exact Hok | split; [exact Htr | exact Hsc]].
Qed.




(** ** [save_models] and [load_models] *)

Lemma predict_depends_on (np_log1p np_sqrt : Q -> Q) (p p' : P.t)
  (city category business : string) (investment normal : Q) :
  P.demand_model p' = P.demand_model p ->
  P.competition_model p' = P.competition_model p ->
  P.label_encoders p' = P.label_encoders p ->
  P.scaler p' = P.scaler p ->
  fst (P.predict_single_business np_log1p np_sqrt p'
         city category business investment normal)
  = fst (P.predict_single_business np_log1p np_sqrt p
           city category business investment normal).
Proof.
  intros Hd Hc He Hs. unfold P.predict_single_business.
  rewrite Hd, Hc, He.
  destruct (P.demand_model p); [| reflexivity].
  destruct (P.competition_model p); [| reflexivity].
  destruct (P.prepare_features _ _ _ _) as [features encs].
  cbn [P.with_encoders P.scaler]. rewrite Hs.
  destruct (P.try_predict _ _ _ _ _); reflexivity.
Qed.

Lemma load_models_run (q : P.t) (dir : ModelDir) :
  match demand_model_pkl dir, competition_model_pkl dir,
        label_encoders_pkl dir, scaler_pkl dir with
  | Some dm, Some cm, Some encs, Some sc =>
      load_models q dir
      = (true, {| P.df := P.df q; P.demand_model := Some dm;
                  P.competition_model := Some cm; P.label_encoders := encs;
                  P.scaler := sc |})
  | Some dm, Some cm, Some encs, None =>
      load_models q dir
      = (false, {| P.df := P.df q; P.demand_model := Some dm;
                   P.competition_model := Some cm; P.label_encoders := encs;
                   P.scaler := P.scaler q |})
  | Some dm, Some cm, None, _ =>
      load_models q dir
      = (false, {| P.df := P.df q; P.demand_model := Some dm;
                   P.competition_model := Some cm;
                   P.label_encoders := P.label_encoders q;
                   P.scaler := P.scaler q |})
  | Some dm, None, _, _ =>
      load_models q dir
      = (false, {| P.df := P.df q; P.demand_model := Some dm;
                   P.competition_model := P.competition_model q;
                   P.label_encoders := P.label_encoders q;
                   P.scaler := P.scaler q |})
  | None, _, _, _ => load_models q dir = (false, q)
  end.
Proof.
  unfold load_models.
  destruct (demand_model_pkl dir); [| reflexivity].
  destruct (competition_model_pkl dir); [| reflexivity].
  destruct (label_encoders_pkl dir); [| reflexivity].
  destruct (scaler_pkl dir); reflexivity.
Qed.

(** X20.  Saving a predictor that has both models and loading the
    directory into any predictor succeeds and restores the two models, the
    encoders and the scaler, so that the loaded predictor returns the same
    prediction as the saved one for every input and draw. *)
Theorem save_load_round_trip (np_log1p np_sqrt : Q -> Q) (p q : P.t)
  (dir : ModelDir) (city category business : string) (investment normal : Q) :
  trained p ->
  let loaded := load_models q (save_models p dir) in
  fst loaded = true /\
  P.demand_model (snd loaded) = P.demand_model p /\
  P.competition_model (snd loaded) = P.competition_model p /\
  P.label_encoders (snd loaded) = P.label_encoders p /\
  P.scaler (snd loaded) = P.scaler p /\
  P.df (snd loaded) = P.df q /\
  fst (P.predict_single_business np_log1p np_sqrt (snd loaded)
         city category business investment normal)
  = fst (P.predict_single_business np_log1p np_sqrt p
           city category business investment normal).
Proof.
  intros (dm & cm & Hdm & Hcm) loaded.
  assert (Hl : loaded
               = (true, {| P.df := P.df q; P.demand_model := Some dm;
                           P.competition_model := Some cm;
                           P.label_encoders := P.label_encoders p;
                           P.scaler := P.scaler p |})).
  { unfold loaded.
    pose proof (load_models_run q (save_models p dir)) as H.
    unfold save_models in H.
    cbn [demand_model_pkl competition_model_pkl label_encoders_pkl scaler_pkl] in H.
    rewrite Hdm, Hcm in H. unfold save_models. rewrite Hdm, Hcm. exact H. }
  rewrite Hl. cbn [fst snd P.demand_model P.competition_model P.label_encoders
                   P.scaler P.df].
  repeat (split; [first [reflexivity | congruence] |]).
  apply predict_depends_on; cbn; congruence.
Qed.

Lemma save_load_round_trip_witness :
  fst (load_models P.init (save_models sample_predictor empty_dir)) = true /\
  fst (P.predict_single_business sample_np sample_np
         (snd (load_models P.init (save_models sample_predictor empty_dir)))
         "Mumbai" "Food" "Cafe" 250 0)
  = fst (P.predict_single_business sample_np sample_np sample_predictor
           "Mumbai" "Food" "Cafe" 250 0).
Proof.
  destruct (save_load_round_trip sample_np sample_np sample_predictor P.init
              empty_dir "Mumbai" "Food" "Cafe" 250 0 sample_predictor_trained)
    as (Hok & _ & _ & _ & _ & _ & Hsame).
  split; [exact Hok | exact Hsame].
Defined.

(** X21.  [load_models] returns [True] exactly when the four files are
    there.  When both model files are there but the encoders or the scaler
    are missing, it returns [False] and yet leaves a predictor with both
    models and its old scaler: if that scaler was never fitted, every
    prediction of this predictor is the fallback prediction. *)
Theorem load_models_missing_file (q : P.t) (dir : ModelDir) :
  (fst (load_models q dir) = true <->
   demand_model_pkl dir <> None /\ competition_model_pkl dir <> None /\
   label_encoders_pkl dir <> None /\ scaler_pkl dir <> None) /\
  (demand_model_pkl dir = None -> load_models q dir = (false, q)) /\
  (demand_model_pkl dir <> None -> competition_model_pkl dir <> None ->
   label_encoders_pkl dir = None \/ scaler_pkl dir = None ->
   fst (load_models q dir) = false /\
   trained (snd (load_models q dir)) /\
   P.scaler (snd (load_models q dir)) = P.scaler q /\
   (P.scaler q = None ->
    forall (np_log1p np_sqrt : Q -> Q) (city category business : string)
           (investment normal : Q),
      fst (P.predict_single_business np_log1p np_sqrt (snd (load_models q dir))
             city category business investment normal)
      = Py.Ok (P._get_fallback_prediction category))).
Proof.
  pose proof (load_models_run q dir) as Hrun.
  destruct (demand_model_pkl dir) as [dm |];
    [| rewrite Hrun; split;
       [split; [discriminate | intros (H & _); congruence]
       | split; [reflexivity | intros H; congruence]]].
  destruct (competition_model_pkl dir) as [cm |];
    [| rewrite Hrun; split;
       [split; [discriminate | intros (_ & H & _); congruence]
       | split; [discriminate | intros _ H; congruence]]].
  assert (Hfall : forall (p : P.t),
             P.demand_model p = Some dm -> P.competition_model p = Some cm ->
             P.scaler p = None ->
             forall (np_log1p np_sqrt : Q -> Q) (city category business : string)
                    (investment normal : Q),
               fst (P.predict_single_business np_log1p np_sqrt p
                      city category business investment normal)
               = Py.Ok (P._get_fallback_prediction category)).
  { intros p Hd Hc Hs np_log1p np_sqrt city category business investment normal.
    unfold P.predict_single_business. rewrite Hd, Hc.
    destruct (prepare_features_facts np_log1p np_sqrt
                (P.input_data city category business investment)
                (P.label_encoders p)) as (fs & encs & -> & _).
    cbn [P.with_encoders P.scaler]. rewrite Hs. reflexivity. }
  destruct (label_encoders_pkl dir) as [encs |];
    [destruct (scaler_pkl dir) as [sc |] |]; rewrite Hrun; cbn [fst snd].
  - split; [split; [intros _; repeat split; discriminate | reflexivity] |].
    split; [discriminate |]. intros _ _ [H | H]; discriminate H.
  - split; [split; [discriminate | intros (_ & _ & _ & H); congruence] |].
    split; [discriminate |]. intros _ _ _.
    split; [reflexivity |].
    split; [exists dm, cm; split; reflexivity |].
    split; [reflexivity |].
    intros Hs. apply Hfall; [reflexivity | reflexivity | exact Hs].
  - split; [split; [discriminate | intros (_ & _ & H & _); congruence] |].
    split; [discriminate |]. intros _ _ _.
    split; [reflexivity |].
    split; [exists dm, cm; split; reflexivity |].
    split; [reflexivity |].
    intros Hs. apply Hfall; [reflexivity | reflexivity | exact Hs].
Qed.

Lemma load_models_missing_file_witness :
  fst (load_models P.init
         {| demand_model_pkl := Some (constant_model 75);
            competition_model_pkl := Some (constant_model 40);
            label_encoders_pkl := Some [];
            scaler_pkl := None |}) = false /\
  fst (P.predict_single_business sample_np sample_np
         (snd (load_models P.init
                 {| demand_model_pkl := Some (constant_model 75);
                    competition_model_pkl := Some (constant_model 40);
                    label_encoders_pkl := Some [];
                    scaler_pkl := None |}))
         "Mumbai" "Tech" "Arcade" 250 0)
  = Py.Ok (P._get_fallback_prediction "Tech").
Proof.
  destruct (load_models_missing_file P.init
              {| demand_model_pkl := Some (constant_model 75);
                 competition_model_pkl := Some (constant_model 40);
                 label_encoders_pkl := Some [];
                 scaler_pkl := None |}) as (_ & _ & H).
  destruct H as (Hfalse & _ & _ & Hfall);
    [discriminate | discriminate | right; reflexivity |].
  split; [exact Hfalse |]. apply Hfall. reflexivity.
Defined.

(** ** [get_feature_importance] *)

Lemma slice_to_prefix {A : Type} (xs : list A) (n : Z) :
  exists k : nat,
    slice_to xs n = firstn k xs /\
    ((0 <= n)%Z -> k = Z.to_nat n) /\
    ((n < 0)%Z -> k = (List.length xs - Z.to_nat (- n))%nat).
Proof.
  unfold slice_to. destruct (0 <=? n)%Z eqn:Hn.
  - exists (Z.to_nat n). split; [reflexivity |]. split; [reflexivity | lia].
  - exists (List.length xs - Z.to_nat (- n))%nat.
    split; [reflexivity |]. split; [lia | reflexivity].
Qed.

(** X22.  For a model type that was never trained
    [get_feature_importance] is empty.  Otherwise it returns the features
    in descending order of importance, cut after [top_n] entries (or
    without the last [-top_n] entries when [top_n] is negative): the
    entries returned are entries of the dictionary, and none that is left
    out has a larger importance. *)
Theorem feature_importance_top (feature_importance : list (string * list (string * Q)))
  (model_type : string) (top_n : Z) :
  let top := get_feature_importance feature_importance model_type top_n in
  (lookup feature_importance model_type = None -> top = []) /\
  (forall importance_dict,
      lookup feature_importance model_type = Some importance_dict ->
      StronglySorted (fun a b => snd b <= snd a) top /\
      (exists rest : list (string * Q),
          Permutation importance_dict (top ++ rest) /\
          Forall (fun a => Forall (fun b => snd b <= snd a) rest) top) /\
      ((0 <= top_n)%Z ->
       Z.of_nat (List.length top)
       = Z.min top_n (Z.of_nat (List.length importance_dict))) /\
      ((top_n < 0)%Z ->
       Z.of_nat (List.length top)
       = Z.max 0 (Z.of_nat (List.length importance_dict) + top_n))).
Proof.
  intros top. unfold top, get_feature_importance.
  split; [intros ->; reflexivity |].
  intros d ->.
  set (swap := fun x : string * Q => (snd x, fst x)).
  set (back := fun x : Q * string => (snd x, fst x)).
  set (ranked := map back (E.sort_desc (map swap d))).
  assert (Hperm : Permutation ranked d).
  { unfold ranked.
    eapply Permutation_trans; [apply Permutation_map, sort_desc_perm |].
    rewrite map_map. unfold back, swap. cbn [fst snd].
    rewrite (map_ext _ (fun x => x)) by (intros [a b]; reflexivity).
    rewrite map_id. apply Permutation_refl. }
  assert (Hsorted : StronglySorted (fun a b : string * Q => snd b <= snd a) ranked).
  { unfold ranked. apply (map_sorted (@key_ge string)); [| apply sort_desc_sorted].
    intros a b _ _ Hab. exact Hab. }
  destruct (slice_to_prefix ranked top_n) as (k & -> & Hpos & Hneg).
  pose proof (Permutation_length Hperm) as Hlen.
  split; [apply firstn_sorted; exact Hsorted |].
  split.
  - exists (skipn k ranked). split.
    + rewrite firstn_skipn. apply Permutation_sym. exact Hperm.
    + apply (sorted_app_below (fun a b : string * Q => snd b <= snd a)).
      rewrite firstn_skipn. exact Hsorted.
  - rewrite length_firstn. split; intros H.
    + rewrite (Hpos H). lia.
    + rewrite (Hneg H). lia.
Qed.

Lemma feature_importance_top_witness :
  get_feature_importance [("demand", [("City_encoded", 1 # 10)])] "competition" 5
  = [] /\
  Z.of_nat (List.length
              (get_feature_importance
                 [("demand", [("City_encoded", 1 # 10); ("Investment_log", 6 # 10);
                              ("Category_encoded", 3 # 10)])] "demand" (-1)))
  = 2%Z.
Proof.
  split.
  - apply (feature_importance_top _ "competition" 5). reflexivity.
  - destruct (feature_importance_top
                [("demand", [("City_encoded", 1 # 10); ("Investment_log", 6 # 10);
                             ("Category_encoded", 3 # 10)])] "demand" (-1))
      as [_ H].
    destruct (H _ eq_refl) as (_ & _ & _ & Hneg).
    rewrite Hneg by lia. reflexivity.
Defined.

(** ** Interpreting a prediction *)

Lemma round_ge_decimal (x : Q) (k : Z) (n : nat) :
  inject_Z k / Py.pow10 n <= x -> inject_Z k / Py.pow10 n <= Py.round x n.
Proof.
  intros H. apply (round_mono _ _ n) in H. rewrite round_decimal in H. exact H.
Qed.

Lemma rounded_confidence_high (c : Q) : 8 # 10 < Py.round c 2 -> 8 # 10 < c.
Proof.
  intros H. apply Qnot_le_lt. intros Hle.
  assert (Hb : c <= inject_Z 80 / Py.pow10 2)
    by (assert (E : inject_Z 80 / Py.pow10 2 == 8 # 10) by reflexivity; lra).
  apply round_le_decimal in Hb.
  assert (E : inject_Z 80 / Py.pow10 2 == 8 # 10) by reflexivity. lra.
Qed.

Lemma rounded_confidence_low (c : Q) : Py.round c 2 < 6 # 10 -> c < 6 # 10.
Proof.
  intros H. apply Qnot_le_lt. intros Hle.
  assert (Hb : inject_Z 60 / Py.pow10 2 <= c)
    by (assert (E : inject_Z 60 / Py.pow10 2 == 6 # 10) by reflexivity; lra).
  apply round_ge_decimal in Hb.
  assert (E : inject_Z 60 / Py.pow10 2 == 6 # 10) by reflexivity. lra.
Qed.

(** A prediction comes from the models or from the fallback table. *)
Lemma predict_result_cases (np_log1p np_sqrt : Q -> Q) (self : P.t)
  (city category business : string) (investment normal : Q) (r : Prediction) :
  fst (P.predict_single_business np_log1p np_sqrt self
         city category business investment normal) = Py.Ok r ->
  (exists (d c : Q) (f0 : list Q),
      r = P.ml_result (Py.clip d 50 100) (Py.clip c 20 80)
            (P._calculate_confidence f0 normal)) \/
  r = P._get_fallback_prediction category.
Proof.
  unfold P.predict_single_business.
  destruct (P.demand_model self) as [dm |]; [| discriminate].
  destruct (P.competition_model self) as [cm |]; [| discriminate].
  destruct (P.prepare_features _ _ _ _) as [features encs].
  destruct (P.try_predict _ _ _ _ _) as [r' | e] eqn:Htry; cbn [fst]; intros [= <-].
  - left. apply try_predict_ok in Htry
      as (fs & f0 & X & d & c & ds & cs & _ & _ & _ & _ & ->).
    exists d, c, f0. reflexivity.
  - right. reflexivity.
Qed.

(** X23.  For every prediction [predict_single_business] returns, the
    interpretation "Excellent opportunity with high confidence" is given
    only to a prediction of quality "High" with a market gap above 20, and
    the recommendation "Needs more research" only to a prediction of
    quality "Low"; a fallback prediction gets neither. *)
Theorem interpretation_matches_quality (np_log1p np_sqrt : Q -> Q) (self : P.t)
  (city category business : string) (investment normal : Q) (r : Prediction) :
  fst (P.predict_single_business np_log1p np_sqrt self
         city category business investment normal) = Py.Ok r ->
  (E._interpret_ml_prediction r = "🚀 Excellent opportunity with high confidence" ->
   prediction_quality r = "High" /\ 20 < market_gap r) /\
  (E._get_business_recommendation r
   = "🔍 Needs more research - Low prediction confidence" ->
   prediction_quality r = "Low") /\
  (r = P._get_fallback_prediction category ->
   E._interpret_ml_prediction r <> "🚀 Excellent opportunity with high confidence" /\
   E._get_business_recommendation r
   <> "🔍 Needs more research - Low prediction confidence").
Proof.
  intros Hok.
  assert (Hfb : forall cat,
             E._interpret_ml_prediction (P._get_fallback_prediction cat)
             <> "🚀 Excellent opportunity with high confidence" /\
             E._get_business_recommendation (P._get_fallback_prediction cat)
             <> "🔍 Needs more research - Low prediction confidence").
  { intros cat. unfold E._interpret_ml_prediction, E._get_business_recommendation,
      P._get_fallback_prediction.
    cbn [market_gap confidence demand competition].
    change (Py.lt (8 # 10) (6 # 10)) with false.
    change (Py.lt (7 # 10) (6 # 10)) with false.
    change (Py.lt (6 # 10) (6 # 10)) with false.
    rewrite !andb_false_r.
    split.
    - destruct (Py.lt 5 _); discriminate.
    - destruct (Py.lt 80 _ && Py.lt _ 40); [discriminate |].
      destruct (Py.lt 70 _ && Py.lt _ 60); discriminate. }
  destruct (predict_result_cases _ _ _ _ _ _ _ _ _ Hok)
    as [(d & c & f0 & ->) | ->].
  - set (conf := P._calculate_confidence f0 normal).
    split; [| split].
    + unfold E._interpret_ml_prediction, P.ml_result.
      cbn [market_gap confidence prediction_quality].
      destruct (Py.lt 20 _) eqn:Hg; cbn [andb].
      * destruct (Py.lt (8 # 10) (Py.round conf 2)) eqn:Hc.
        -- intros _. apply lt_iff in Hg. apply lt_iff in Hc.
           apply rounded_confidence_high in Hc.
           split; [apply quality_thresholds; exact Hc | exact Hg].
        -- destruct (Py.lt 15 _ && Py.lt (7 # 10) _); [discriminate |].
           destruct (Py.lt 5 _); discriminate.
      * destruct (Py.lt 15 _ && Py.lt (7 # 10) _); [discriminate |].
        destruct (Py.lt 5 _); discriminate.
    + unfold E._get_business_recommendation, P.ml_result.
      cbn [demand competition confidence prediction_quality].
      destruct (Py.lt 80 _ && Py.lt _ 40); [discriminate |].
      destruct (Py.lt 70 _ && Py.lt _ 60); [discriminate |].
      destruct (Py.lt (Py.round conf 2) (6 # 10)) eqn:Hc; [| discriminate].
      intros _. apply lt_iff in Hc. apply rounded_confidence_low in Hc.
      apply quality_thresholds. lra.
    + intros Heq. rewrite Heq. apply Hfb.
  - destruct (Hfb category) as [H1 H2].
    split; [intros H; contradiction | split; [intros H; contradiction |]].
    intros _. split; assumption.
Qed.

Lemma interpretation_matches_quality_witness :
  E._get_business_recommendation (P._get_fallback_prediction "Tech")
  <> "🔍 Needs more research - Low prediction confidence".
Proof.
  assert (Hok : fst (P.predict_single_business sample_np sample_np unfitted_predictor
                       "Mumbai" "Tech" "Arcade" 250 0)
                = Py.Ok (P._get_fallback_prediction "Tech")) by reflexivity.
  destruct (interpretation_matches_quality _ _ _ _ _ _ _ _ _ Hok) as (_ & _ & H).
  apply H. reflexivity.
Defined.

(** ** The engine's ML path and its initialization *)

(** X24.  With ML enabled and a predictor that has both models,
    [predict_new_business_opportunity] never returns the basic prediction:
    it returns the predictor's prediction, same demand, competition,
    confidence, market gap and quality (High, Medium or Low), with an
    interpretation and a recommendation added, and keeps the engine's
    dataset and ML setting. *)
Theorem ml_opportunity (np_log1p np_sqrt : Q -> Q) (self : E.t) (p : P.t)
  (city category business_name : string) (investment normal : Q) (h : E.Heap) :
  E.use_ml self = true -> E.ml_predictor self = Some p -> trained p ->
  let out := E.predict_new_business_opportunity np_log1p np_sqrt self
               city category business_name investment normal h in
  exists r : Prediction,
    fst (P.predict_single_business np_log1p np_sqrt p
           city category business_name investment normal) = Py.Ok r /\
    E.ml_predictor (snd out)
    = Some (snd (P.predict_single_business np_log1p np_sqrt p
                   city category business_name investment normal)) /\
    demand (fst out) = demand r /\
    competition (fst out) = competition r /\
    confidence (fst out) = confidence r /\
    market_gap (fst out) = market_gap r /\
    prediction_quality (fst out) = prediction_quality r /\
    prediction_quality (fst out) <> "Basic" /\
    interpretation (fst out) = Some (E._interpret_ml_prediction r) /\
    recommendation (fst out) = Some (E._get_business_recommendation r) /\
    E.df (snd out) = E.df self /\
    E.use_ml (snd out) = true.
Proof.
  intros Huse Hp (dm & cm & Hdm & Hcm) out.
  unfold out, E.predict_new_business_opportunity. rewrite Huse, Hp.
  destruct (P.predict_single_business np_log1p np_sqrt p
              city category business_name investment normal)
    as [[r | e] p'] eqn:Hcall.
  - exists r. cbn [fst snd E.with_predictor E.ml_predictor E.df E.use_ml
                   E.set_interpretation E.set_recommendation
                   demand competition confidence market_gap prediction_quality
                   interpretation recommendation].
    assert (Hfst : fst (P.predict_single_business np_log1p np_sqrt p
                          city category business_name investment normal) = Py.Ok r)
      by (rewrite Hcall; reflexivity).
    repeat (split; [first [reflexivity | exact Huse] |]).
    split; [| repeat (split; [first [reflexivity | exact Huse] |]); exact Huse].
    destruct (predict_result_cases _ _ _ _ _ _ _ _ _ Hfst)
      as [(d & c & f0 & ->) | ->].
    + cbn [P.ml_result prediction_quality].
      destruct (quality_values (P._calculate_confidence f0 normal))
        as [-> | [-> | ->]]; discriminate.
    + discriminate.
  - exfalso. unfold P.predict_single_business in Hcall. rewrite Hdm, Hcm in Hcall.
    destruct (P.prepare_features _ _ _ _) as [features encs].
    destruct (P.try_predict _ _ _ _ _); discriminate Hcall.
Qed.

Lemma ml_opportunity_witness :
  prediction_quality
    (fst (E.predict_new_business_opportunity sample_np sample_np
            {| E.df := 0%nat; E.use_ml := true;
               E.ml_predictor := Some sample_predictor |}
            "Mumbai" "Food" "Cafe" 250 0 sample_heap)) <> "Basic".
Proof.
  destruct (ml_opportunity sample_np sample_np
              {| E.df := 0%nat; E.use_ml := true;
                 E.ml_predictor := Some sample_predictor |}
              sample_predictor "Mumbai" "Food" "Cafe" 250 0 sample_heap
              eq_refl eq_refl sample_predictor_trained)
    as (r & _ & _ & _ & _ & _ & _ & _ & Hq & _).
  exact Hq.
Defined.

Lemma load_models_trained (q : P.t) (dir : ModelDir) :
  fst (load_models q dir) = true -> trained (snd (load_models q dir)).
Proof.
  pose proof (load_models_run q dir) as Hrun.
  destruct (demand_model_pkl dir) as [dm |]; [| rewrite Hrun; discriminate].
  destruct (competition_model_pkl dir) as [cm |]; [| rewrite Hrun; discriminate].
  destruct (label_encoders_pkl dir); [| rewrite Hrun; discriminate].
  destruct (scaler_pkl dir); rewrite Hrun; [| discriminate].
  intros _. exists dm, cm. split; reflexivity.
Qed.

Lemma save_then_load (p : P.t) (dir : ModelDir) :
  trained p -> fst (load_models P.init (save_models p dir)) = true.
Proof.
  intros (dm & cm & Hdm & Hcm).
  pose proof (load_models_run P.init (save_models p dir)) as H.
  unfold save_models in *.
  cbn [demand_model_pkl competition_model_pkl label_encoders_pkl scaler_pkl] in H.
  rewrite Hdm, Hcm in *. rewrite H. reflexivity.
Qed.

(** X25.  [_initialize_ml_predictor] keeps the engine's dataset and leaves
    the engine in one of two states: ML switched off with no predictor and
    the model directory untouched, or the ML setting unchanged with a
    predictor that has both models and a model directory from which a
    later [load_models] succeeds.  It trains only when the directory is
    incomplete. *)
Theorem initialize_ml_predictor_states (np_log1p np_sqrt : Q -> Q)
  (split_indices : nat -> list nat * list nat)
  (fit : list (list Q) -> list Q -> P.Model)
  (self : E.t) (csv : list Row) (dir : ModelDir) :
  let out := _initialize_ml_predictor np_log1p np_sqrt split_indices fit
               self csv dir in
  E.df (fst out) = E.df self /\
  ((E.use_ml (fst out) = false /\ E.ml_predictor (fst out) = None /\
    snd out = dir /\ fst (load_models P.init dir) = false) \/
   (E.use_ml (fst out) = E.use_ml self /\
    (exists p : P.t, E.ml_predictor (fst out) = Some p /\ trained p) /\
    fst (load_models P.init (snd out)) = true /\
    (fst (load_models P.init dir) = true ->
     snd out = dir /\
     E.ml_predictor (fst out) = Some (snd (load_models P.init dir))))).
Proof.
  intros out. unfold out, _initialize_ml_predictor.
  destruct (load_models P.init dir) as [loaded predictor] eqn:Hload.
  destruct loaded.
  - cbn [fst snd E.with_predictor E.df E.use_ml E.ml_predictor].
    split; [reflexivity |]. right.
    split; [reflexivity |].
    split.
    + exists predictor. split; [reflexivity |].
      pose proof (load_models_trained P.init dir) as H.
      rewrite Hload in H. apply H. reflexivity.
    + split; [rewrite Hload; reflexivity |].
      intros _. split; reflexivity.
  - destruct (train_models_run np_log1p np_sqrt split_indices fit predictor csv)
      as (fs & _ & _ & _ & Hcases).
    destruct (P.train_models np_log1p np_sqrt split_indices fit predictor csv)
      as [[[] | e] predictor'] eqn:Htrain;
      cbn [fst snd E.with_predictor E.df E.use_ml E.ml_predictor] in *.
    + split; [reflexivity |]. right.
      destruct Hcases as [(_ & Hraise & _) | (_ & Htrained & _)];
        [discriminate Hraise |].
      split; [reflexivity |].
      split; [exists predictor'; split; [reflexivity | exact Htrained] |].
      split; [apply save_then_load; exact Htrained | discriminate].
    + split; [reflexivity |]. left. repeat split; reflexivity.
Qed.

(** ** Confidence reported, and scores by interest *)

(** X26.  Whatever the draw, the confidence estimate is 0.85 plus the draw
    capped at 1, the confidence reported (the estimate rounded to two
    decimals) is at most 1 as well, and the quality is "High" exactly when
    the estimate is above 0.8, "Medium" exactly when it is above 0.6 and at
    most 0.8, and "Low" exactly when it is at most 0.6. *)
Theorem confidence_and_quality (d c : Q) (features : list Q) (normal : Q) :
  let estimate := P._calculate_confidence features normal in
  let r := P.ml_result d c estimate in
  estimate == Qmin ((85 # 100) + normal) 1 /\
  estimate <= 1 /\
  confidence r <= 1 /\
  (1 <= (85 # 100) + normal -> confidence r == 1) /\
  (prediction_quality r = "High" <-> 8 # 10 < estimate) /\
  (prediction_quality r = "Medium" <-> 6 # 10 < estimate <= 8 # 10) /\
  (prediction_quality r = "Low" <-> estimate <= 6 # 10).
Proof.
  intros estimate r.
  destruct (confidence_capped features normal) as [Hmin Hle].
  fold estimate in Hmin, Hle.
  split; [exact Hmin |]. split; [exact Hle |].
  unfold r, P.ml_result. cbn [confidence prediction_quality].
  split; [| split].
  - assert (Hup : Py.round estimate 2 <= Py.round 1 2) by (apply round_mono; exact Hle).
    assert (H1 : Py.round 1 2 == 1) by reflexivity. lra.
  - intros Hcap.
    assert (He : estimate == 1) by (rewrite Hmin; apply Q.min_r; exact Hcap).
    rewrite (round_comp _ _ 2 He). reflexivity.
  - apply quality_thresholds.
Qed.

(** X27.  For demand and competition in [0,100] and a positive investment
    and budget, a line whose category is among the interests scores at
    least 20, and a line whose category is not scores at most 80, so that
    the dashboard can class it "score-excellent" only at exactly 80. *)
Theorem score_by_interest (row : Row) (budget : Q) (interests : list string) :
  0 <= Demand row <= 100 -> 0 <= Competition row <= 100 ->
  0 < budget -> 0 < Investment row ->
  let score := E.calculate_total_score row budget interests in
  (In (Category row) interests -> 20 <= score <= 100) /\
  (~ In (Category row) interests ->
   0 <= score <= 80 /\
   (get_score_color_class score = "score-excellent" -> score == 80)).
Proof.
  intros Hd Hc Hb Hi score.
  pose proof (total_score_round row budget interests) as Hround.
  fold score in Hround. unfold weighted_sum in Hround.
  pose proof (budget_fit_range budget (Investment row) Hb Hi) as Hbf.
  pose proof (market_gap_linear (Demand row) (Competition row)) as Hmg.
  set (mg := E.calculate_market_gap (Demand row) (Competition row)) in *.
  set (bf := E.calculate_budget_fit budget (Investment row)) in *.
  set (im := E.calculate_interest_match interests (Category row)) in *.
  destruct (interest_match_cases interests (Category row)) as [[Hin e] | [Hin e]];
    fold im in e.
  - split; [intros _ | tauto].
    rewrite Hround. apply (round_between _ 2 20 100).
    change (inject_Z 20) with 20. change (inject_Z 100) with 100.
    rewrite e. lra.
  - split; [tauto | intros _].
    assert (Hs : 0 <= score <= 80).
    { rewrite Hround. apply (round_between _ 2 0 80).
      change (inject_Z 0) with 0. change (inject_Z 80) with 80.
      rewrite e. lra. }
    split; [exact Hs |].
    unfold get_score_color_class.
    destruct (Qle_bool 80 score) eqn:H80.
    + intros _. apply Qle_bool_iff in H80. lra.
    + destruct (Qle_bool 65 score); [discriminate |].
      destruct (Qle_bool 50 score); discriminate.
Qed.

Lemma score_by_interest_witness :
  20 <= E.calculate_total_score open_row 50 ["Tech"] <= 100 /\
  0 <= E.calculate_total_score open_row 50 ["Food"] <= 80.
Proof.
  assert (H100 : 0 <= 100 <= 100) by lra.
  assert (H0 : 0 <= 0 <= 100) by lra.
  assert (H50 : 0 < 50) by lra.
  assert (Hinv : 0 < 100) by lra.
  destruct (score_by_interest open_row 50 ["Tech"] H100 H0 H50 Hinv) as [Hin _].
  destruct (score_by_interest open_row 50 ["Food"] H100 H0 H50 Hinv) as [_ Hout].
  split.
  - apply Hin. simpl. tauto.
  - apply Hout. simpl. intros [H | H]; [discriminate H | exact H].
Defined.
